(** * CycleGAN network definitions: a shallow embedding of [models/cyclegan.py]

    The file follows the Python module top to bottom: the Python-level
    helpers the module relies on (exceptions, [str.lower], truthiness,
    name lookup), the tensor backend that stands for TensorFlow/Keras,
    then the layers and models of the module, and finally the properties
    of the forward pass. *)

From Stdlib Require Import ZArith List String Ascii Bool QArith Reals Lia Lra.
Import ListNotations.

Local Open Scope string_scope.
Local Open Scope Z_scope.

(* ================================================================= *)
(** ** Python values, exceptions and name lookup *)

Module Py.

(** The exceptions the module can raise while a layer is constructed or
    called. *)
Inductive exn : Type :=
| ValueError (msg : string)
| NameError (name : string)
| AttributeError (attr : string).

Inductive result (A : Type) : Type :=
| Ok (a : A)
| Raise (e : exn).

Arguments Ok {A} a.
Arguments Raise {A} e.

Definition bind {A B : Type} (m : result A) (k : A -> result B) : result B :=
  match m with
  | Ok a => k a
  | Raise e => Raise e
  end.

(** [str.lower()].  Strings are byte strings here; only the ASCII capitals
    are mapped.  Every literal the module compares a lowered string with
    ("batchnorm", "instancenorm", "relu", "lrelu", "tanh") is made of ASCII
    letters none of which is the lower case of a non-ASCII character, so the
    comparisons agree with Python's on every input. *)
Definition ascii_lower (c : ascii) : ascii :=
  let n := nat_of_ascii c in
  if (Nat.leb 65 n && Nat.leb n 90)%bool then ascii_of_nat (n + 32) else c.

Fixpoint lower (s : string) : string :=
  match s with
  | EmptyString => EmptyString
  | String c rest => String (ascii_lower c) (lower rest)
  end.

(** Truthiness of an [Optional[str]]: [None] and the empty string are
    falsy. *)
Definition truthy (v : option string) : bool :=
  match v with
  | None => false
  | Some EmptyString => false
  | Some (String _ _) => true
  end.

(** A value a name can be bound to: a string held by a local, or one of the
    objects bound at module level. *)
Inductive pyval : Type :=
| PStr (s : string)
| PGlobal (name : string).

(** The names bound at module level by the imports, the constant, the
    classes and the two functions of cyclegan.py. *)
Definition module_globals : list string :=
  [ "tf"; "Model"; "Layer"; "Conv2D"; "BatchNormalization"; "LeakyReLU";
    "ReLU"; "Conv2DTranspose"; "Dropout"; "concatenate"; "ZeroPadding2D";
    "Input"; "tanh"; "INPUT_SHAPE"; "InstanceNormalization"; "ResNetBlock";
    "get_norm_layer"; "get_activation"; "Downsample"; "Upsample";
    "Discriminator"; "ResNetGenerator" ].

Fixpoint lookup_local (locals : list (string * string)) (name : string)
  : option string :=
  match locals with
  | [] => None
  | (k, v) :: rest => if String.eqb k name then Some v else lookup_local rest name
  end.

(** Reading a name inside a function body: the locals first, then the
    module globals; a name bound in neither raises [NameError] (none of the
    names read by the module is a builtin). *)
Definition load_name (locals : list (string * string)) (name : string)
  : result pyval :=
  match lookup_local locals name with
  | Some s => Ok (PStr s)
  | None =>
      if existsb (String.eqb name) module_globals then Ok (PGlobal name)
      else Raise (NameError name)
  end.

(** [str(v)] as [format] uses it. *)
Definition py_str (v : pyval) : string :=
  match v with
  | PStr s => s
  | PGlobal name => "<" ++ name ++ ">"
  end.

(** [template.format(v)] for a template with positional fields: the first
    [{}] is replaced by [str(v)]. *)
Fixpoint format (template : string) (v : pyval) : string :=
  match template with
  | EmptyString => EmptyString
  | String c rest =>
      match rest with
      | String c' rest' =>
          if (Ascii.eqb c "{" && Ascii.eqb c' "}")%bool
          then py_str v ++ rest'
          else String c (format rest v)
      | EmptyString => String c EmptyString
      end
  end.

(** [int(a / b)]: true division followed by truncation toward zero.
    Python rounds the quotient to binary64 before truncating it; for
    [|a| < 2^53] the rounding is exact and the result is the truncated
    rational quotient given here.  From [2^53] on the two can differ; the
    module computes one number this way, a padding, and a padding that
    large exceeds every dimension of a tensor. *)
Definition int_truediv (a b : Z) : Z := Z.quot a b.

End Py.

Import Py.

Notation "x <- m ;; k" := (Py.bind m (fun x => k))
  (at level 61, m at next level, right associativity).

(* ================================================================= *)
(** ** Keras objects used as library layers *)

(** Python tells two layer objects apart by identity.  An object is named
    here by the attribute path that reaches it from the model that owns it
    ([self], [self.downsample_1], [self.downsample_1.conv2d], ...); the
    backend keys the variables of a layer by that path. *)
Definition ref : Type := string.

Definition attr (self : ref) (name : string) : ref := self ++ "." ++ name.

Inductive Padding : Type := valid | same.

Inductive pad_mode : Type := CONSTANT | REFLECT | SYMMETRIC.

Inductive Initializer : Type :=
| random_normal_initializer (mean stddev : Q)
| glorot_uniform
| zeros.

(** The arguments of [Conv2D] and [Conv2DTranspose] the module sets, with
    Keras' defaults for the others ([use_bias=True], [activation=None],
    [kernel_initializer="glorot_uniform"]). *)
Record conv_args : Type := {
  filters : Z;
  kernel_size : Z;
  strides : Z;
  padding : Padding;
  kernel_initializer : Initializer;
  use_bias : bool;
  conv_activation : option string
}.

Definition Conv2D : Type := conv_args.
Definition Conv2DTranspose : Type := conv_args.

(** Keras checks the arguments of a layer when the layer is constructed
    and raises a [ValueError] for one it refuses.  The checks are those of
    Keras 3; of its message only the argument at fault is kept. *)
Definition keras_invalid (argument : string) : exn :=
  ValueError ("Invalid value for argument `" ++ argument ++ "`").

Fixpoint has_slash (s : string) : bool :=
  match s with
  | EmptyString => false
  | String c rest => Ascii.eqb c "/" || has_slash rest
  end.

(** [Layer.__init__(name=name)] and [Model.__init__(name=name)]: the name
    of a layer cannot contain "/". *)
Definition Layer_init (name : string) : result unit :=
  if has_slash name then Raise (keras_invalid "name") else Ok tt.

(** [Conv2D(filters, kernel_size, strides, ...)] and
    [Conv2DTranspose(...)]: the kernel size, the strides and the number of
    filters must be strictly positive. *)
Definition Conv_init (filters kernel_size strides : Z) (padding : Padding)
  (kernel_initializer : Initializer) (use_bias : bool)
  (activation : option string) : result conv_args :=
  if kernel_size <=? 0 then Raise (keras_invalid "kernel_size")
  else if strides <=? 0 then Raise (keras_invalid "strides")
  else if filters <=? 0 then Raise (keras_invalid "filters")
  else Ok {| filters := filters; kernel_size := kernel_size;
             strides := strides; padding := padding;
             kernel_initializer := kernel_initializer;
             use_bias := use_bias; conv_activation := activation |}.

Definition Conv2D_init := Conv_init.
Definition Conv2DTranspose_init := Conv_init.

(** [ZeroPadding2D()]: Keras' default pads one row and one column on each
    side. *)
Record ZeroPadding2D : Type := { zero_padding : Z }.

Definition ZeroPadding2D_default : ZeroPadding2D := {| zero_padding := 1 |}.

Record Dropout : Type := { rate : Q }.

(** What [get_activation] hands back: a [ReLU] layer, a [LeakyReLU] layer
    or the function [tanh]. *)
Inductive Activation : Type :=
| ReLU
| LeakyReLU (alpha : Q)
| tanh.

(* ================================================================= *)
(** ** The tensor backend *)

(** The TensorFlow operations [InstanceNormalization] is written with. *)
Class TensorArith (T : Type) : Type := {
  tensor_shape : T -> list Z;
  add_weight : ref -> string -> list Z -> Initializer -> T;
  tf_nn_moments : T -> list Z -> bool -> T * T;
  tf_math_rsqrt : T -> T;
  tensor_add : T -> T -> T;
  tensor_sub : T -> T -> T;
  tensor_mul : T -> T -> T;
  tensor_add_scalar : T -> Q -> T
}.

(** The rest of what the module calls: [tf.pad] and the Keras layers it
    instantiates. *)
Class Backend (T : Type) : Type := {
  Backend_arith :: TensorArith T;
  tf_pad : T -> list (Z * Z) -> pad_mode -> T;
  keras_Conv2D : ref -> Conv2D -> T -> T;
  keras_Conv2DTranspose : ref -> Conv2DTranspose -> T -> T;
  keras_BatchNormalization : ref -> T -> T;
  keras_ReLU : T -> T;
  keras_LeakyReLU : Q -> T -> T;
  keras_tanh : T -> T;
  keras_Dropout : ref -> Dropout -> T -> T;
  keras_ZeroPadding2D : ZeroPadding2D -> T -> T
}.

Definition Activation_apply {T : Type} {B : Backend T} (a : Activation) (x : T) : T :=
  match a with
  | ReLU => keras_ReLU x
  | LeakyReLU alpha => keras_LeakyReLU alpha x
  | tanh => keras_tanh x
  end.

(* ================================================================= *)
(** ** The module *)

Definition INPUT_SHAPE : Z * Z * Z := (256, 256, 3).

(** [shape[-1:]] *)
Definition last_slice (shape : list Z) : list Z :=
  skipn (List.length shape - 1) shape.

Module InstanceNormalization.

Record t : Type := { epsilon : Q }.

Definition epsilon_default : Q := 1 # 100000.

Definition init (epsilon : Q) : t := {| epsilon := epsilon |}.

(** The attributes [build] sets. *)
Record weights (T : Type) : Type := { scale : T; offset : T }.

Arguments scale {T} w.
Arguments offset {T} w.

Section Forward.
Context {T : Type} {A : TensorArith T}.

Definition build (self : ref) (input_shape : list Z) : weights T :=
  {| scale := add_weight self "scale" (last_slice input_shape)
                (random_normal_initializer 0 (2 # 100));
     offset := add_weight self "offset" (last_slice input_shape) zeros |}.

Definition call (self : t) (w : weights T) (x : T) : T :=
  let (mean, variance) := tf_nn_moments x [1; 2] true in
  let inv := tf_math_rsqrt (tensor_add_scalar variance (epsilon self)) in
  let normalized := tensor_mul (tensor_sub x mean) inv in
  tensor_add (tensor_mul (scale w) normalized) (offset w).

(** [layer(x)]: Keras builds the layer on the shape of its input, then
    runs [call]. *)
Definition apply (this : ref) (self : t) (x : T) : T :=
  call self (build this (tensor_shape x)) x.

End Forward.

End InstanceNormalization.

Inductive NormLayer : Type :=
| BatchNormalization
| InstanceNorm (layer : InstanceNormalization.t).

Definition NormLayer_apply {T : Type} {B : Backend T}
  (this : ref) (l : NormLayer) (x : T) : T :=
  match l with
  | BatchNormalization => keras_BatchNormalization this x
  | InstanceNorm layer => InstanceNormalization.apply this layer x
  end.

Module ResNetBlock.

Record t : Type := {
  this : ref;
  size : Z;
  conv2d_1 : Conv2D;
  instance_norm_1 : InstanceNormalization.t;
  ReLU_ : Activation;
  conv2d_2 : Conv2D;
  instance_norm_2 : InstanceNormalization.t
}.

Definition size_default : Z := 3.
Definition strides_default : Z := 1.
Definition padding_default : Padding := valid.

(** [name] is accepted and not passed on to [Layer.__init__]. *)
Definition init (self : ref) (filters size strides : Z) (padding : Padding)
  (name : string) : result t :=
  let initializer := random_normal_initializer 0 (2 # 100) in
  conv2d_1 <- Conv2D_init filters size strides padding initializer false
                None ;;
  let instance_norm_1 :=
    InstanceNormalization.init InstanceNormalization.epsilon_default in
  conv2d_2 <- Conv2D_init filters size strides padding initializer false
                None ;;
  let instance_norm_2 :=
    InstanceNormalization.init InstanceNormalization.epsilon_default in
  Ok {| this := self; size := size; conv2d_1 := conv2d_1;
        instance_norm_1 := instance_norm_1; ReLU_ := ReLU;
        conv2d_2 := conv2d_2; instance_norm_2 := instance_norm_2 |}.

Section Forward.
Context {T : Type} {B : Backend T}.

Definition call (self : t) (inputs : T) : T :=
  let pad := Py.int_truediv (size self - 1) 2 in
  let x := tf_pad inputs [(0, 0); (pad, pad); (pad, pad); (0, 0)] REFLECT in
  let x := keras_Conv2D (attr (this self) "conv2d_1") (conv2d_1 self) x in
  let x := InstanceNormalization.apply (attr (this self) "instance_norm_1")
             (instance_norm_1 self) x in
  let x := Activation_apply (ReLU_ self) x in
  let x := tf_pad x [(0, 0); (pad, pad); (pad, pad); (0, 0)] REFLECT in
  let x := keras_Conv2D (attr (this self) "conv2d_2") (conv2d_2 self) x in
  let x := InstanceNormalization.apply (attr (this self) "instance_norm_2")
             (instance_norm_2 self) x in
  tensor_add x inputs.

End Forward.

End ResNetBlock.

(** [norm_type] is an [Optional[str]]; calling [.lower()] on [None] raises
    [AttributeError]. *)
Definition get_norm_layer (norm_type : option string) : result NormLayer :=
  match norm_type with
  | None => Raise (AttributeError "lower")
  | Some s =>
      let locals := [("norm_type", s)] in
      if String.eqb (lower s) "batchnorm" then Ok BatchNormalization
      else if String.eqb (lower s) "instancenorm" then
        Ok (InstanceNorm
              (InstanceNormalization.init InstanceNormalization.epsilon_default))
      else
        v <- load_name locals "norm_type" ;;
        Raise (ValueError
                 (format ("arg `norm_type` has to be either batchnorm "
                          ++ "or instancenorm. What you specified is "
                          ++ "{}") v))
  end.

Definition get_activation (activation : string) : result Activation :=
  let locals := [("activation", activation)] in
  if String.eqb (lower activation) "relu" then Ok ReLU
  else if String.eqb (lower activation) "lrelu" then Ok (LeakyReLU (2 # 10))
  else if String.eqb (lower activation) "tanh" then Ok tanh
  else
    v <- load_name locals "norm_type" ;;
    Raise (ValueError
             (format ("arg `norm_type` has to be either relu "
                      ++ "or tanh. What you specified is "
                      ++ "{}") v)).

Module Downsample.

Record t : Type := {
  this : ref;
  name : string;
  norm_type : option string;
  norm_layer : option NormLayer;
  conv2d : Conv2D;
  activation : Activation
}.

Definition strides_default : Z := 1.
Definition padding_default : Padding := same.
Definition norm_type_default : option string := Some "batchnorm".
Definition activation_default : string := "lrelu".
Definition name_default : string := "downsample".

Definition init (self : ref) (filters size strides : Z) (padding : Padding)
  (norm_type : option string) (activation : string) (name : string)
  : result t :=
  _ <- Layer_init name ;;
  let initializer := random_normal_initializer 0 (2 # 100) in
  let use_bias := false in
  st <- (if truthy norm_type
         then l <- get_norm_layer norm_type ;; Ok (Some l, use_bias)
         else Ok (None, true)) ;;
  let (norm_layer, use_bias) := st : option NormLayer * bool in
  conv2d <- Conv2D_init filters size strides padding initializer use_bias
              None ;;
  act <- get_activation activation ;;
  Ok {| this := self; name := name; norm_type := norm_type;
        norm_layer := norm_layer; conv2d := conv2d; activation := act |}.

Section Forward.
Context {T : Type} {B : Backend T}.

Definition call (self : t) (inputs : T) : result T :=
  let x := keras_Conv2D (attr (this self) "conv2d") (conv2d self) inputs in
  x <- (if truthy (norm_type self)
        then match norm_layer self with
             | Some l => Ok (NormLayer_apply (attr (this self) "norm_layer") l x)
             | None => Raise (AttributeError "norm_layer")
             end
        else Ok x) ;;
  let x := Activation_apply (activation self) x in
  Ok x.

End Forward.

End Downsample.

Module Upsample.

Record t : Type := {
  this : ref;
  name : string;
  norm_type : option string;
  norm_layer : option NormLayer;
  apply_dropout : bool;
  conv2dtranspose : Conv2DTranspose;
  dropout : option Dropout;
  activation : Activation
}.

Definition norm_type_default : option string := Some "batchnorm".
Definition apply_dropout_default : bool := false.
Definition activation_default : string := "relu".
Definition name_default : string := "upsample".

Definition init (self : ref) (filters size strides : Z) (padding : Padding)
  (norm_type : option string) (apply_dropout : bool) (activation : string)
  (name : string) : result t :=
  _ <- Layer_init name ;;
  let initializer := random_normal_initializer 0 (2 # 100) in
  let use_bias := false in
  st <- (if truthy norm_type
         then l <- get_norm_layer norm_type ;; Ok (Some l, use_bias)
         else Ok (None, true)) ;;
  let (norm_layer, use_bias) := st : option NormLayer * bool in
  conv2dtranspose <- Conv2DTranspose_init filters size strides padding
                       initializer use_bias None ;;
  let dropout := if apply_dropout then Some {| rate := 1 # 2 |} else None in
  act <- get_activation activation ;;
  Ok {| this := self; name := name; norm_type := norm_type;
        norm_layer := norm_layer; apply_dropout := apply_dropout;
        conv2dtranspose := conv2dtranspose; dropout := dropout;
        activation := act |}.

Section Forward.
Context {T : Type} {B : Backend T}.

Definition call (self : t) (inputs : T) : result T :=
  let x := keras_Conv2DTranspose (attr (this self) "conv2dtranspose")
             (conv2dtranspose self) inputs in
  x <- (if truthy (norm_type self)
        then match norm_layer self with
             | Some l => Ok (NormLayer_apply (attr (this self) "norm_layer") l x)
             | None => Raise (AttributeError "norm_layer")
             end
        else Ok x) ;;
  x <- (if apply_dropout self
        then match dropout self with
             | Some d => Ok (keras_Dropout (attr (this self) "dropout") d x)
             | None => Raise (AttributeError "dropout")
             end
        else Ok x) ;;
  let x := Activation_apply (activation self) x in
  Ok x.

End Forward.

End Upsample.

Module Discriminator.

Record t : Type := {
  this : ref;
  name : string;
  norm_type : option string;
  downsample_1 : Downsample.t;
  downsample_2 : Downsample.t;
  downsample_3 : Downsample.t;
  zeropadding2d_1 : ZeroPadding2D;
  downsample_4 : Downsample.t;
  zeropadding2d_2 : ZeroPadding2D;
  conv2d : Conv2D
}.

Definition first_filters_default : Z := 64.
Definition size_default : Z := 4.
Definition norm_type_default : option string := Some "instancenorm".
Definition name_default : string := "discriminator".

Definition init (self : ref) (first_filters size : Z)
  (norm_type : option string) (name : string) : result t :=
  _ <- Layer_init name ;;
  let initializer := random_normal_initializer 0 (2 # 100) in
  d1 <- Downsample.init (attr self "downsample_1") first_filters size 2 same
          None "lrelu" "downsample_1" ;;
  d2 <- Downsample.init (attr self "downsample_2") (first_filters * 2) size 2
          same norm_type "lrelu" "downsample_2" ;;
  d3 <- Downsample.init (attr self "downsample_3") (first_filters * 4) size 2
          same norm_type "lrelu" "downsample_3" ;;
  let zp1 := ZeroPadding2D_default in
  d4 <- Downsample.init (attr self "downsample_4") (first_filters * 8) size 1
          valid norm_type "lrelu" "downsample_4" ;;
  let zp2 := ZeroPadding2D_default in
  conv <- Conv2D_init 1 size 1 valid initializer true None ;;
  Ok {| this := self; name := name; norm_type := norm_type;
        downsample_1 := d1; downsample_2 := d2; downsample_3 := d3;
        zeropadding2d_1 := zp1; downsample_4 := d4; zeropadding2d_2 := zp2;
        conv2d := conv |}.

Section Forward.
Context {T : Type} {B : Backend T}.

Definition call (self : t) (inputs : T) : result T :=
  x <- Downsample.call (downsample_1 self) inputs ;;
  x <- Downsample.call (downsample_2 self) x ;;
  x <- Downsample.call (downsample_3 self) x ;;
  let x := keras_ZeroPadding2D (zeropadding2d_1 self) x in
  x <- Downsample.call (downsample_4 self) x ;;
  let x := keras_ZeroPadding2D (zeropadding2d_2 self) x in
  let x := keras_Conv2D (attr (this self) "conv2d") (conv2d self) x in
  Ok x.

End Forward.

End Discriminator.

Module ResNetGenerator.

Record t : Type := {
  this : ref;
  name : string;
  downsample_1 : Downsample.t;
  downsample_2 : Downsample.t;
  downsample_3 : Downsample.t;
  resnetblock_1 : ResNetBlock.t;
  resnetblock_2 : ResNetBlock.t;
  resnetblock_3 : ResNetBlock.t;
  resnetblock_4 : ResNetBlock.t;
  resnetblock_5 : ResNetBlock.t;
  resnetblock_6 : ResNetBlock.t;
  resnetblock_7 : ResNetBlock.t;
  resnetblock_8 : ResNetBlock.t;
  resnetblock_9 : ResNetBlock.t;
  upsample_1 : Upsample.t;
  upsample_2 : Upsample.t;
  last_conv2d : Conv2D
}.

Definition first_filters_default : Z := 64.
Definition output_channels_default : Z := 3.
Definition norm_type_default : option string := Some "instancenorm".
Definition name_default : string := "resnet_generator".

(** A residual block built with the defaults of [ResNetBlock.__init__]. *)
Definition block (self : ref) (filters : Z) (name : string)
  : result ResNetBlock.t :=
  ResNetBlock.init (attr self name) filters ResNetBlock.size_default
    ResNetBlock.strides_default ResNetBlock.padding_default name.

Definition init (self : ref) (first_filters output_channels : Z)
  (norm_type : option string) (name : string) : result t :=
  _ <- Layer_init name ;;
  d1 <- Downsample.init (attr self "downsample_1") first_filters 7 1 valid
          (Some "instancenorm") Downsample.activation_default
          "downsample_1" ;;
  d2 <- Downsample.init (attr self "downsample_2") (first_filters * 2) 3 2
          Downsample.padding_default (Some "instancenorm")
          Downsample.activation_default "downsample_2" ;;
  d3 <- Downsample.init (attr self "downsample_3") (first_filters * 4) 3 2
          Downsample.padding_default (Some "instancenorm")
          Downsample.activation_default "downsample_3" ;;
  r1 <- block self (first_filters * 4) "resnetblock_1" ;;
  r2 <- block self (first_filters * 4) "resnetblock_2" ;;
  r3 <- block self (first_filters * 4) "resnetblock_3" ;;
  r4 <- block self (first_filters * 4) "resnetblock_4" ;;
  r5 <- block self (first_filters * 4) "resnetblock_5" ;;
  r6 <- block self (first_filters * 4) "resnetblock_6" ;;
  r7 <- block self (first_filters * 4) "resnetblock_7" ;;
  r8 <- block self (first_filters * 4) "resnetblock_8" ;;
  r9 <- block self (first_filters * 4) "resnetblock_9" ;;
  u1 <- Upsample.init (attr self "upsample_1") (first_filters * 2) 3 2 same
          (Some "instancenorm") Upsample.apply_dropout_default
          Upsample.activation_default "upsample_1" ;;
  u2 <- Upsample.init (attr self "upsample_2") first_filters 3 2 same
          (Some "instancenorm") Upsample.apply_dropout_default
          Upsample.activation_default "upsample_2" ;;
  last <- Conv2D_init output_channels 7 1 valid glorot_uniform true
            (Some "tanh") ;;
  Ok {| this := self; name := name;
        downsample_1 := d1; downsample_2 := d2; downsample_3 := d3;
        resnetblock_1 := r1; resnetblock_2 := r2; resnetblock_3 := r3;
        resnetblock_4 := r4; resnetblock_5 := r5; resnetblock_6 := r6;
        resnetblock_7 := r7; resnetblock_8 := r8; resnetblock_9 := r9;
        upsample_1 := u1; upsample_2 := u2; last_conv2d := last |}.

Section Forward.
Context {T : Type} {B : Backend T}.

Definition call (self : t) (inputs : T) : result T :=
  let x := tf_pad inputs [(0, 0); (3, 3); (3, 3); (0, 0)] REFLECT in
  x <- Downsample.call (downsample_1 self) x ;;
  x <- Downsample.call (downsample_2 self) x ;;
  x <- Downsample.call (downsample_3 self) x ;;
  let x := ResNetBlock.call (resnetblock_1 self) x in
  let x := ResNetBlock.call (resnetblock_2 self) x in
  let x := ResNetBlock.call (resnetblock_3 self) x in
  let x := ResNetBlock.call (resnetblock_4 self) x in
  let x := ResNetBlock.call (resnetblock_5 self) x in
  let x := ResNetBlock.call (resnetblock_6 self) x in
  let x := ResNetBlock.call (resnetblock_7 self) x in
  let x := ResNetBlock.call (resnetblock_8 self) x in
  let x := ResNetBlock.call (resnetblock_9 self) x in
  x <- Upsample.call (upsample_1 self) x ;;
  x <- Upsample.call (upsample_2 self) x ;;
  let x := tf_pad x [(0, 0); (3, 3); (3, 3); (0, 0)] REFLECT in
  let result := keras_Conv2D (attr (this self) "last_conv2d")
                  (last_conv2d self) x in
  Ok result.

End Forward.

End ResNetGenerator.

(* ================================================================= *)
(** ** Pipelines: the vocabulary of the architecture descriptions *)

(** A stage of a model's forward pass, as the descriptions of the two
    models name them. *)
Inductive stage : Type :=
| ReflectPad (p : Z)
| ZeroPad (z : ZeroPadding2D)
| Conv (this : ref) (c : Conv2D)
| Down (d : Downsample.t)
| Res (r : ResNetBlock.t)
| Up (u : Upsample.t).

Section Pipeline.
Context {T : Type} {B : Backend T}.

Definition run_stage (s : stage) (x : T) : result T :=
  match s with
  | ReflectPad p => Ok (tf_pad x [(0, 0); (p, p); (p, p); (0, 0)] REFLECT)
  | ZeroPad z => Ok (keras_ZeroPadding2D z x)
  | Conv this c => Ok (keras_Conv2D this c x)
  | Down d => Downsample.call d x
  | Res r => Ok (ResNetBlock.call r x)
  | Up u => Upsample.call u x
  end.

Fixpoint run (stages : list stage) (x : T) : result T :=
  match stages with
  | [] => Ok x
  | s :: rest => y <- run_stage s x ;; run rest y
  end.

(** The value after each stage, first stage first. *)
Fixpoint intermediates (stages : list stage) (x : T) : result (list T) :=
  match stages with
  | [] => Ok []
  | s :: rest =>
      y <- run_stage s x ;;
      ys <- intermediates rest y ;;
      Ok (y :: ys)
  end.

End Pipeline.

Definition ResNetGenerator_blocks (g : ResNetGenerator.t) : list ResNetBlock.t :=
  [ ResNetGenerator.resnetblock_1 g; ResNetGenerator.resnetblock_2 g;
    ResNetGenerator.resnetblock_3 g; ResNetGenerator.resnetblock_4 g;
    ResNetGenerator.resnetblock_5 g; ResNetGenerator.resnetblock_6 g;
    ResNetGenerator.resnetblock_7 g; ResNetGenerator.resnetblock_8 g;
    ResNetGenerator.resnetblock_9 g ].

(** The generator as described: reflection padding, three downsampling
    stages, the residual blocks, two upsampling stages, reflection padding
    and the output convolution. *)
Definition ResNetGenerator_stages (g : ResNetGenerator.t) : list stage :=
  [ ReflectPad 3;
    Down (ResNetGenerator.downsample_1 g);
    Down (ResNetGenerator.downsample_2 g);
    Down (ResNetGenerator.downsample_3 g) ]
  ++ map Res (ResNetGenerator_blocks g)
  ++ [ Up (ResNetGenerator.upsample_1 g);
       Up (ResNetGenerator.upsample_2 g);
       ReflectPad 3;
       Conv (attr (ResNetGenerator.this g) "last_conv2d")
            (ResNetGenerator.last_conv2d g) ].

(** The discriminator as its one-line description reads: four downsampling
    stages, then padding, then the final convolution. *)
Definition Discriminator_stages_described (d : Discriminator.t) : list stage :=
  [ Down (Discriminator.downsample_1 d);
    Down (Discriminator.downsample_2 d);
    Down (Discriminator.downsample_3 d);
    Down (Discriminator.downsample_4 d);
    ZeroPad (Discriminator.zeropadding2d_2 d);
    Conv (attr (Discriminator.this d) "conv2d") (Discriminator.conv2d d) ].

(** The discriminator with the zero padding that precedes the fourth
    downsampling stage. *)
Definition Discriminator_stages (d : Discriminator.t) : list stage :=
  [ Down (Discriminator.downsample_1 d);
    Down (Discriminator.downsample_2 d);
    Down (Discriminator.downsample_3 d);
    ZeroPad (Discriminator.zeropadding2d_1 d);
    Down (Discriminator.downsample_4 d);
    ZeroPad (Discriminator.zeropadding2d_2 d);
    Conv (attr (Discriminator.this d) "conv2d") (Discriminator.conv2d d) ].

(** The residual branch of a block: what is added to the block's input. *)
Definition ResNetBlock_branch {T : Type} {B : Backend T}
  (r : ResNetBlock.t) (x : T) : T :=
  let p := Z.quot (ResNetBlock.size r - 1) 2 in
  let reflect (y : T) := tf_pad y [(0, 0); (p, p); (p, p); (0, 0)] REFLECT in
  let conv_1 := keras_Conv2D (attr (ResNetBlock.this r) "conv2d_1")
                  (ResNetBlock.conv2d_1 r) in
  let norm_1 := InstanceNormalization.apply
                  (attr (ResNetBlock.this r) "instance_norm_1")
                  (ResNetBlock.instance_norm_1 r) in
  let conv_2 := keras_Conv2D (attr (ResNetBlock.this r) "conv2d_2")
                  (ResNetBlock.conv2d_2 r) in
  let norm_2 := InstanceNormalization.apply
                  (attr (ResNetBlock.this r) "instance_norm_2")
                  (ResNetBlock.instance_norm_2 r) in
  norm_2 (conv_2 (reflect (keras_ReLU (norm_1 (conv_1 (reflect x)))))).

(** A string contains another. *)
Definition includes (s part : string) : Prop :=
  exists before after, s = before ++ part ++ after.

(* ================================================================= *)
(** ** The shape backend: tensors seen through their shapes *)

(** TensorFlow's shape rules for the operations the module uses; [None] is
    a shape error.  Dimensions are in NHWC order; a convolution needs at
    least one input channel. *)
Module ShapeBackend.

Definition tensor : Type := option (list Z).

Definition on_shape (f : list Z -> tensor) (x : tensor) : tensor :=
  match x with
  | Some s => f s
  | None => None
  end.

(** Broadcasting of two dimensions, then of two shapes aligned on their
    last dimension. *)
Definition broadcast_dim (a b : Z) : option Z :=
  if Z.eqb a b then Some a
  else if Z.eqb a 1 then Some b
  else if Z.eqb b 1 then Some a
  else None.

Fixpoint broadcast_rev (a b : list Z) : option (list Z) :=
  match a, b with
  | [], _ => Some b
  | _, [] => Some a
  | x :: a', y :: b' =>
      match broadcast_dim x y, broadcast_rev a' b' with
      | Some d, Some r => Some (d :: r)
      | _, _ => None
      end
  end.

Definition broadcast (x y : tensor) : tensor :=
  match x, y with
  | Some a, Some b => option_map (@rev Z) (broadcast_rev (rev a) (rev b))
  | _, _ => None
  end.

(** An axis counted from the end when negative. *)
Definition normalize_axis (rank : nat) (a : Z) : option nat :=
  if (0 <=? a) && (a <? Z.of_nat rank) then Some (Z.to_nat a)
  else if (- Z.of_nat rank <=? a) && (a <? 0) then Some (Z.to_nat (a + Z.of_nat rank))
  else None.

Fixpoint normalize_axes (rank : nat) (axes : list Z) : option (list nat) :=
  match axes with
  | [] => Some []
  | a :: rest =>
      match normalize_axis rank a, normalize_axes rank rest with
      | Some n, Some ns => Some (n :: ns)
      | _, _ => None
      end
  end.

Definition indexed (s : list Z) : list (nat * Z) := combine (seq 0 (List.length s)) s.

Definition reduced (axes : list nat) (i : nat) : bool := existsb (Nat.eqb i) axes.

Definition reduce_shape (axes : list Z) (keepdims : bool) (s : list Z) : tensor :=
  match normalize_axes (List.length s) axes with
  | Some ns =>
      if keepdims
      then Some (map (fun p => if reduced ns (fst p) then 1 else snd p) (indexed s))
      else Some (map snd (filter (fun p => negb (reduced ns (fst p))) (indexed s)))
  | None => None
  end.

(** [tf.pad]: one pair per dimension; REFLECT needs both paddings below the
    dimension, SYMMETRIC at most the dimension. *)
Definition pad_ok (mode : pad_mode) (d lo hi : Z) : bool :=
  (0 <=? lo) && (0 <=? hi) &&
  match mode with
  | CONSTANT => true
  | REFLECT => (lo <? d) && (hi <? d)
  | SYMMETRIC => (lo <=? d) && (hi <=? d)
  end.

Fixpoint pad_shape (mode : pad_mode) (paddings : list (Z * Z)) (s : list Z)
  : tensor :=
  match s, paddings with
  | [], [] => Some []
  | d :: s', (lo, hi) :: paddings' =>
      if pad_ok mode d lo hi
      then option_map (cons (d + lo + hi)) (pad_shape mode paddings' s')
      else None
  | _, _ => None
  end.

(** Output length of a convolution along one spatial dimension. *)
Definition conv_length (p : Padding) (k s d : Z) : option Z :=
  match p with
  | valid => if k <=? d then Some ((d - k) / s + 1) else None
  | same => Some ((d + s - 1) / s)
  end.

Definition conv_shape (c : conv_args) (s : list Z) : tensor :=
  match s with
  | [n; h; w; ci] =>
      if (1 <=? kernel_size c) && (1 <=? strides c) && (1 <=? filters c)
         && (1 <=? ci)
      then match conv_length (padding c) (kernel_size c) (strides c) h,
                 conv_length (padding c) (kernel_size c) (strides c) w with
           | Some h', Some w' => Some [n; h'; w'; filters c]
           | _, _ => None
           end
      else None
  | _ => None
  end.

(** Output length of a transposed convolution along one spatial
    dimension. *)
Definition deconv_length (p : Padding) (k s d : Z) : Z :=
  match p with
  | valid => d * s + Z.max (k - s) 0
  | same => d * s
  end.

Definition deconv_shape (c : conv_args) (s : list Z) : tensor :=
  match s with
  | [n; h; w; ci] =>
      if (1 <=? kernel_size c) && (1 <=? strides c) && (1 <=? filters c)
         && (1 <=? ci)
      then Some [n; deconv_length (padding c) (kernel_size c) (strides c) h;
                 deconv_length (padding c) (kernel_size c) (strides c) w;
                 filters c]
      else None
  | _ => None
  end.

Definition zero_pad_shape (z : ZeroPadding2D) (s : list Z) : tensor :=
  match s with
  | [n; h; w; c] =>
      if 0 <=? zero_padding z
      then Some [n; h + 2 * zero_padding z; w + 2 * zero_padding z; c]
      else None
  | _ => None
  end.

Definition arith : TensorArith tensor := {|
  tensor_shape := fun x => match x with Some s => s | None => [] end;
  add_weight := fun _ _ shape _ => Some shape;
  tf_nn_moments := fun x axes keepdims =>
    (on_shape (reduce_shape axes keepdims) x,
     on_shape (reduce_shape axes keepdims) x);
  tf_math_rsqrt := fun x => x;
  tensor_add := broadcast;
  tensor_sub := broadcast;
  tensor_mul := broadcast;
  tensor_add_scalar := fun x _ => x
|}.

Definition backend : Backend tensor := {|
  Backend_arith := arith;
  tf_pad := fun x paddings mode => on_shape (pad_shape mode paddings) x;
  keras_Conv2D := fun _ c => on_shape (conv_shape c);
  keras_Conv2DTranspose := fun _ c => on_shape (deconv_shape c);
  keras_BatchNormalization := fun _ x => x;
  keras_ReLU := fun x => x;
  keras_LeakyReLU := fun _ x => x;
  keras_tanh := fun x => x;
  keras_Dropout := fun _ _ x => x;
  keras_ZeroPadding2D := fun z => on_shape (zero_pad_shape z)
|}.

End ShapeBackend.

#[global] Existing Instance ShapeBackend.arith.
#[global] Existing Instance ShapeBackend.backend.

(* ================================================================= *)
(** ** The real backend: tensors as real-valued arrays *)

(** The arithmetic of [InstanceNormalization] over the reals.  A tensor is
    a shape and the value at each multi-index.  Shape errors are the shape
    backend's concern: here two dimensions that do not broadcast yield the
    first one.  The reals stand for float32 without its rounding, and
    division and square root are the total functions of the reals: what is
    proved over this backend is a fact of exact arithmetic, and says
    nothing where the code divides by zero; the checked backend below
    keeps track of that. *)
Module RealBackend.

Record tensor : Type := { shape : list nat; value : list nat -> R }.

(** The sum of [f 0 .. f (n-1)]. *)
Fixpoint sum_below (n : nat) (f : nat -> R) : R :=
  match n with
  | O => 0%R
  | S m => (sum_below m f + f m)%R
  end.

(** [idx] with position [i] set to [v]. *)
Fixpoint put (i v : nat) (idx : list nat) : list nat :=
  match idx, i with
  | [], _ => []
  | _ :: rest, O => v :: rest
  | x :: rest, S i' => x :: put i' v rest
  end.

(** [idx] with [v] inserted before position [i]. *)
Fixpoint insert (i v : nat) (idx : list nat) : list nat :=
  match i, idx with
  | O, _ => v :: idx
  | S i', x :: rest => x :: insert i' v rest
  | S _, [] => [v]
  end.

(** [s] without position [i]. *)
Fixpoint drop (i : nat) (s : list nat) : list nat :=
  match s, i with
  | [], _ => []
  | _ :: rest, O => rest
  | x :: rest, S i' => x :: drop i' rest
  end.

Fixpoint insert_sorted (a : nat) (l : list nat) : list nat :=
  match l with
  | [] => [a]
  | b :: rest => if Nat.leb a b then a :: l else b :: insert_sorted a rest
  end.

Definition ascending (l : list nat) : list nat := fold_right insert_sorted [] l.

(** The sum of [f] over every index that agrees with [idx] outside [axes]. *)
Fixpoint sum_over (axes s : list nat) (f : list nat -> R) (idx : list nat) : R :=
  match axes with
  | [] => f idx
  | a :: rest =>
      sum_below (nth a s O) (fun k => sum_over rest s f (put a k idx))
  end.

Definition count (axes s : list nat) : nat :=
  fold_right (fun a acc => (nth a s O * acc)%nat) 1%nat axes.

(** [tf.reduce_mean(x, axes, keepdims=True)] *)
Definition reduce_mean (axes : list nat) (x : tensor) : tensor :=
  {| shape := fold_right (fun a s => put a 1%nat s) (shape x) axes;
     value := fun idx =>
       (sum_over axes (shape x) (value x) idx / INR (count axes (shape x)))%R |}.

(** Dropping the reduced axes of a tensor that kept them. *)
Definition squeeze (axes : list nat) (x : tensor) : tensor :=
  {| shape := fold_right drop (shape x) (ascending axes);
     value := fun idx =>
       value x (fold_left (fun acc a => insert a O acc) (ascending axes) idx) |}.

Definition broadcast_dim (a b : nat) : nat := if Nat.eqb a 1 then b else a.

Fixpoint broadcast_rev (a b : list nat) : list nat :=
  match a, b with
  | [], _ => b
  | _, [] => a
  | x :: a', y :: b' => broadcast_dim x y :: broadcast_rev a' b'
  end.

Definition broadcast_shape (a b : list nat) : list nat :=
  rev (broadcast_rev (rev a) (rev b)).

(** The coordinate an operand of dimension [d] is read at for coordinate
    [i] of the broadcast result. *)
Definition coord (d i : nat) : nat := if Nat.eqb d 1 then O else i.

Fixpoint coords (s idx : list nat) : list nat :=
  match s, idx with
  | d :: s', i :: idx' => coord d i :: coords s' idx'
  | _, _ => []
  end.

(** Operands are aligned on their last dimension. *)
Definition operand_index (s idx : list nat) : list nat :=
  coords s (skipn (List.length idx - List.length s) idx).

Definition pointwise (f : R -> R -> R) (x y : tensor) : tensor :=
  {| shape := broadcast_shape (shape x) (shape y);
     value := fun idx =>
       f (value x (operand_index (shape x) idx))
         (value y (operand_index (shape y) idx)) |}.

Definition map_values (f : R -> R) (x : tensor) : tensor :=
  {| shape := shape x; value := fun idx => f (value x idx) |}.

Definition axes_of (rank : nat) (axes : list Z) : list nat :=
  map (fun a => Z.to_nat (if a <? 0 then a + Z.of_nat rank else a)) axes.

(** [tf.nn.moments]: the mean, and the mean of the squared difference to
    it. *)
Definition moments (x : tensor) (axes : list Z) (keepdims : bool)
  : tensor * tensor :=
  let ns := axes_of (List.length (shape x)) axes in
  let mean := reduce_mean ns x in
  let variance :=
    reduce_mean ns (pointwise (fun a m => ((a - m) * (a - m))%R) x mean) in
  if keepdims then (mean, variance) else (squeeze ns mean, squeeze ns variance).

(** The backend over a store of variables: [variables this name] is the
    current value of the variable [name] of the layer [this]. *)
Definition arith (variables : ref -> string -> list nat -> R)
  : TensorArith tensor :=
  {| tensor_shape := fun x => map Z.of_nat (shape x);
     add_weight := fun this name s _ =>
       {| shape := map Z.to_nat s; value := variables this name |};
     tf_nn_moments := moments;
     tf_math_rsqrt := map_values (fun v => (/ sqrt v)%R);
     tensor_add := pointwise Rplus;
     tensor_sub := pointwise Rminus;
     tensor_mul := pointwise Rmult;
     tensor_add_scalar := fun x q => map_values (fun v => (v + Q2R q)%R) x |}.

(** The mean and the variance of channel [k] of image [b] over its [h] rows
    and [w] columns. *)
Definition spatial_mean (x : tensor) (h w b k : nat) : R :=
  (sum_below h (fun i => sum_below w (fun j => value x [b; i; j; k]))
   / INR (h * w))%R.

Definition spatial_variance (x : tensor) (h w b k : nat) : R :=
  (sum_below h (fun i => sum_below w (fun j =>
     Rsqr (value x [b; i; j; k] - spatial_mean x h w b k)))
   / INR (h * w))%R.

End RealBackend.

(* ================================================================= *)
(** ** The checked backend: real arrays that know whether they are defined *)

(** The real backend divides and takes square roots as total functions.
    The code does not: [tf.math.rsqrt] of zero is infinite and of a
    negative number is not a number, and neither is the mean over no
    element.  A checked tensor is a real tensor with the proposition that
    every operation that made it stayed within the reals. *)
Module CheckedBackend.

Record tensor : Type := { data : RealBackend.tensor; defined : Prop }.

(** [idx] is an index of a tensor of shape [s]. *)
Fixpoint within (s idx : list nat) : Prop :=
  match s, idx with
  | [], [] => True
  | d :: s', i :: idx' => (i < d)%nat /\ within s' idx'
  | _, _ => False
  end.

Definition pointwise (f : R -> R -> R) (x y : tensor) : tensor :=
  {| data := RealBackend.pointwise f (data x) (data y);
     defined := defined x /\ defined y |}.

(** The moments are means: they divide by the number of elements of the
    reduced axes. *)
Definition moments (x : tensor) (axes : list Z) (keepdims : bool)
  : tensor * tensor :=
  let s := RealBackend.shape (data x) in
  let counted :=
    (0 < RealBackend.count (RealBackend.axes_of (List.length s) axes) s)%nat in
  let (mean, variance) := RealBackend.moments (data x) axes keepdims in
  ({| data := mean; defined := defined x /\ counted |},
   {| data := variance; defined := defined x /\ counted |}).

(** [tf.math.rsqrt] is defined where every element is positive. *)
Definition rsqrt (x : tensor) : tensor :=
  {| data := RealBackend.map_values (fun v => (/ sqrt v)%R) (data x);
     defined :=
       defined x
       /\ forall idx, within (RealBackend.shape (data x)) idx ->
            (0 < RealBackend.value (data x) idx)%R |}.

Definition arith (variables : ref -> string -> list nat -> R)
  : TensorArith tensor :=
  {| tensor_shape := fun x => map Z.of_nat (RealBackend.shape (data x));
     add_weight := fun this name s _ =>
       {| data := {| RealBackend.shape := map Z.to_nat s;
                     RealBackend.value := variables this name |};
          defined := True |};
     tf_nn_moments := moments;
     tf_math_rsqrt := rsqrt;
     tensor_add := pointwise Rplus;
     tensor_sub := pointwise Rminus;
     tensor_mul := pointwise Rmult;
     tensor_add_scalar := fun x q =>
       {| data := RealBackend.map_values (fun v => (v + Q2R q)%R) (data x);
          defined := defined x |} |}.

End CheckedBackend.

(** The functions the activations compute on a real number. *)
Definition Activation_R (a : Activation) (v : R) : R :=
  match a with
  | ReLU => Rmax 0 v
  | LeakyReLU alpha => if Rle_dec 0 v then v else (Q2R alpha * v)%R
  | tanh => Rtrigo_def.tanh v
  end.

(* ================================================================= *)
(** ** Optional steps of the sampling layers *)

(** The normalization step of [Downsample] and [Upsample]: the layer when
    there is one, nothing otherwise; likewise for dropout. *)
Definition optional_norm {T : Type} {B : Backend T}
  (this : ref) (l : option NormLayer) (x : T) : T :=
  match l with
  | Some layer => NormLayer_apply this layer x
  | None => x
  end.

Definition optional_dropout {T : Type} {B : Backend T}
  (this : ref) (d : option Dropout) (x : T) : T :=
  match d with
  | Some layer => keras_Dropout this layer x
  | None => x
  end.

(** The normalization layer [__init__] stores for a given [norm_type]: the
    one [get_norm_layer] makes when [norm_type] is truthy, none otherwise. *)
Definition stored_norm_layer (norm_type : option string)
  (l : option NormLayer) : Prop :=
  if truthy norm_type
  then exists layer, get_norm_layer norm_type = Ok layer /\ l = Some layer
  else l = None.

(** A sampling layer holds its normalization layer whenever [call] looks
    for it. *)
Definition norm_layer_held (norm_type : option string)
  (l : option NormLayer) : Prop :=
  truthy norm_type = true -> exists layer, l = Some layer.

(** A batch of [bs] images of shape [INPUT_SHAPE]. *)
Definition batch_shape (bs : Z) (image : Z * Z * Z) : list Z :=
  let '(h, w, c) := image in [bs; h; w; c].

(* ================================================================= *)
(** ** Accepted arguments *)




(** [ceil(a / b)] for a positive [b]. *)
Definition ceil_div (a b : Z) : Z := (a + b - 1) / b.

(** A tensor whose shape, when it is that of an image batch, has a height
    or a width of at most [bound]. *)
Definition small (bound : Z) (x : ShapeBackend.tensor) : Prop :=
  match x with
  | Some [_; h; w; _] => h <= bound \/ w <= bound
  | _ => True
  end.

(** The sum of [f i j] over [h] rows and [w] columns. *)
Definition grid_sum (h w : nat) (f : nat -> nat -> R) : R :=
  RealBackend.sum_below h (fun i => RealBackend.sum_below w (fun j => f i j)).

(* ================================================================= *)
(** ** Constructed layers *)

(** The block [ResNetBlock.__init__] returns when Keras accepts the
    arguments of its two convolutions. *)
Definition ResNetBlock_built (self : ref) (filters size strides : Z)
  (padding : Padding) : ResNetBlock.t :=
  let conv := {| filters := filters; kernel_size := size;
                 strides := strides; padding := padding;
                 kernel_initializer := random_normal_initializer 0 (2 # 100);
                 use_bias := false; conv_activation := None |} in
  {| ResNetBlock.this := self;
     ResNetBlock.size := size;
     ResNetBlock.conv2d_1 := conv;
     ResNetBlock.instance_norm_1 :=
       InstanceNormalization.init InstanceNormalization.epsilon_default;
     ResNetBlock.ReLU_ := ReLU;
     ResNetBlock.conv2d_2 := conv;
     ResNetBlock.instance_norm_2 :=
       InstanceNormalization.init InstanceNormalization.epsilon_default |}.

(** The sampling layers [Downsample.__init__] and [Upsample.__init__]
    return, given the normalization layer and the activation they ended up
    with. *)
Definition Downsample_built (self : ref) (filters size strides : Z)
  (padding : Padding) (norm_type : option string) (l : option NormLayer)
  (act : Activation) (name : string) : Downsample.t :=
  {| Downsample.this := self;
     Downsample.name := name;
     Downsample.norm_type := norm_type;
     Downsample.norm_layer := l;
     Downsample.conv2d :=
       {| filters := filters; kernel_size := size;
          strides := strides; padding := padding;
          kernel_initializer := random_normal_initializer 0 (2 # 100);
          use_bias := negb (truthy norm_type);
          conv_activation := None |};
     Downsample.activation := act |}.

Definition Upsample_built (self : ref) (filters size strides : Z)
  (padding : Padding) (norm_type : option string) (l : option NormLayer)
  (apply_dropout : bool) (act : Activation) (name : string) : Upsample.t :=
  {| Upsample.this := self;
     Upsample.name := name;
     Upsample.norm_type := norm_type;
     Upsample.norm_layer := l;
     Upsample.apply_dropout := apply_dropout;
     Upsample.conv2dtranspose :=
       {| filters := filters; kernel_size := size;
          strides := strides; padding := padding;
          kernel_initializer := random_normal_initializer 0 (2 # 100);
          use_bias := negb (truthy norm_type);
          conv_activation := None |};
     Upsample.dropout :=
       if apply_dropout then Some {| rate := 1 # 2 |} else None;
     Upsample.activation := act |}.

Definition instance_norm_layer : option NormLayer :=
  Some (InstanceNorm
          (InstanceNormalization.init InstanceNormalization.epsilon_default)).

(** The generator [ResNetGenerator.__init__] returns when Keras accepts
    its name, [first_filters] and [output_channels]. *)
Definition ResNetGenerator_built (self : ref)
  (first_filters output_channels : Z) (name : string) : ResNetGenerator.t :=
  let block (attribute : string) :=
    ResNetBlock_built (attr self attribute) (first_filters * 4) 3 1 valid in
  {| ResNetGenerator.this := self;
     ResNetGenerator.name := name;
     ResNetGenerator.downsample_1 :=
       Downsample_built (attr self "downsample_1") first_filters 7 1 valid
         (Some "instancenorm") instance_norm_layer (LeakyReLU (2 # 10))
         "downsample_1";
     ResNetGenerator.downsample_2 :=
       Downsample_built (attr self "downsample_2") (first_filters * 2) 3 2
         same (Some "instancenorm") instance_norm_layer (LeakyReLU (2 # 10))
         "downsample_2";
     ResNetGenerator.downsample_3 :=
       Downsample_built (attr self "downsample_3") (first_filters * 4) 3 2
         same (Some "instancenorm") instance_norm_layer (LeakyReLU (2 # 10))
         "downsample_3";
     ResNetGenerator.resnetblock_1 := block "resnetblock_1";
     ResNetGenerator.resnetblock_2 := block "resnetblock_2";
     ResNetGenerator.resnetblock_3 := block "resnetblock_3";
     ResNetGenerator.resnetblock_4 := block "resnetblock_4";
     ResNetGenerator.resnetblock_5 := block "resnetblock_5";
     ResNetGenerator.resnetblock_6 := block "resnetblock_6";
     ResNetGenerator.resnetblock_7 := block "resnetblock_7";
     ResNetGenerator.resnetblock_8 := block "resnetblock_8";
     ResNetGenerator.resnetblock_9 := block "resnetblock_9";
     ResNetGenerator.upsample_1 :=
       Upsample_built (attr self "upsample_1") (first_filters * 2) 3 2 same
         (Some "instancenorm") instance_norm_layer false ReLU "upsample_1";
     ResNetGenerator.upsample_2 :=
       Upsample_built (attr self "upsample_2") first_filters 3 2 same
         (Some "instancenorm") instance_norm_layer false ReLU "upsample_2";
     ResNetGenerator.last_conv2d :=
       {| filters := output_channels; kernel_size := 7; strides := 1;
          padding := valid; kernel_initializer := glorot_uniform;
          use_bias := true; conv_activation := Some "tanh" |} |}.

(* ================================================================= *)
(** * Properties *)

(** ** The two factory functions *)

Lemma lower_literal_examples :
  lower "BatchNorm" = "batchnorm" /\ lower "INSTANCENORM" = "instancenorm"
  /\ lower "lReLU" = "lrelu" /\ lower "tanh" = "tanh".
Proof. repeat split. Qed.

Lemma norm_type_is_not_a_global :
  existsb (String.eqb "norm_type") module_globals = false.
Proof. reflexivity. Qed.

(** C8.  For every string [norm_type], [get_norm_layer] returns a
    [BatchNormalization] layer when the lowered string is "batchnorm", an
    [InstanceNormalization] layer when it is "instancenorm", and in every
    other case returns nothing: it raises a [ValueError] whose message
    contains the string that was passed. *)
Theorem get_norm_layer_cases : forall norm_type : string,
  (lower norm_type = "batchnorm"
   /\ get_norm_layer (Some norm_type) = Ok BatchNormalization)
  \/ (lower norm_type = "instancenorm"
      /\ get_norm_layer (Some norm_type)
         = Ok (InstanceNorm (InstanceNormalization.init
                               InstanceNormalization.epsilon_default)))
  \/ (lower norm_type <> "batchnorm" /\ lower norm_type <> "instancenorm"
      /\ exists msg, get_norm_layer (Some norm_type) = Raise (ValueError msg)
                     /\ includes msg norm_type).
Proof.
  intros s. unfold get_norm_layer.
  destruct (String.eqb_spec (lower s) "batchnorm") as [Hb | Hb].
  - left. split; [exact Hb | reflexivity].
  - destruct (String.eqb_spec (lower s) "instancenorm") as [Hi | Hi].
    + right; left. split; [exact Hi | reflexivity].
    + right; right. split; [exact Hb | split; [exact Hi |]].
      eexists. split; [reflexivity |].
      exists "arg `norm_type` has to be either batchnorm or instancenorm. What you specified is "%string.
      exists ""%string. reflexivity.
Qed.

(** C9.  [get_activation] returns a [ReLU] for "relu", a [LeakyReLU] of
    slope 0.2 for "lrelu" and [tanh] for "tanh" (case-insensitively); for
    every other string, "sigmoid" for one, the error branch reads the name
    [norm_type], which the function does not bind, so what is raised is a
    [NameError] and not the [ValueError] the branch builds. *)
Theorem get_activation_cases :
  get_activation "sigmoid" = Raise (NameError "norm_type")
  /\ forall activation : string,
       (lower activation = "relu" /\ get_activation activation = Ok ReLU)
       \/ (lower activation = "lrelu"
           /\ get_activation activation = Ok (LeakyReLU (2 # 10)))
       \/ (lower activation = "tanh" /\ get_activation activation = Ok tanh)
       \/ (lower activation <> "relu" /\ lower activation <> "lrelu"
           /\ lower activation <> "tanh"
           /\ get_activation activation = Raise (NameError "norm_type")).
Proof.
  split; [reflexivity |].
  intros s. unfold get_activation.
  destruct (String.eqb_spec (lower s) "relu") as [Hr | Hr].
  { left. split; [exact Hr | reflexivity]. }
  destruct (String.eqb_spec (lower s) "lrelu") as [Hl | Hl].
  { right; left. split; [exact Hl | reflexivity]. }
  destruct (String.eqb_spec (lower s) "tanh") as [Ht | Ht].
  { right; right; left. split; [exact Ht | reflexivity]. }
  right; right; right. repeat split; try assumption.
Qed.

(** ** Construction of the sampling layers *)

Example truthy_examples :
  truthy None = false /\ truthy (Some "") = false
  /\ truthy (Some "batchnorm") = true.
Proof. repeat split. Qed.

Example Downsample_init_unknown_norm_type :
  Downsample.init "d" 64 4 2 same (Some "layernorm") "lrelu" "downsample"
  = Raise (ValueError
             "arg `norm_type` has to be either batchnorm or instancenorm. What you specified is layernorm").
Proof. reflexivity. Qed.

Example Downsample_init_unknown_activation :
  Downsample.init "d" 64 4 2 same None "sigmoid" "downsample"
  = Raise (NameError "norm_type").
Proof. reflexivity. Qed.

Example get_norm_layer_None :
  get_norm_layer None = Raise (AttributeError "lower").
Proof. reflexivity. Qed.

Lemma Layer_init_inv : forall name u,
  Layer_init name = Ok u -> has_slash name = false.
Proof.
  intros name u. unfold Layer_init.
  destruct (has_slash name); [discriminate | reflexivity].
Qed.

Lemma Layer_init_ok : forall name,
  has_slash name = false -> Layer_init name = Ok tt.
Proof. intros name H. unfold Layer_init. now rewrite H. Qed.

Lemma Conv_init_inv :
  forall filters size stride padding initializer bias activation c,
    Conv_init filters size stride padding initializer bias activation = Ok c ->
    1 <= filters /\ 1 <= size /\ 1 <= stride
    /\ c = {| filters := filters; kernel_size := size; strides := stride;
              padding := padding; kernel_initializer := initializer;
              use_bias := bias; conv_activation := activation |}.
Proof.
  intros filters size stride padding initializer bias activation c.
  unfold Conv_init.
  destruct (Z.leb_spec size 0); [discriminate |].
  destruct (Z.leb_spec stride 0); [discriminate |].
  destruct (Z.leb_spec filters 0); [discriminate |].
  intros Hc. injection Hc as <-. repeat split; lia.
Qed.

Lemma Conv_init_ok :
  forall filters size stride padding initializer bias activation,
    1 <= filters -> 1 <= size -> 1 <= stride ->
    Conv_init filters size stride padding initializer bias activation
    = Ok {| filters := filters; kernel_size := size; strides := stride;
            padding := padding; kernel_initializer := initializer;
            use_bias := bias; conv_activation := activation |}.
Proof.
  intros filters size stride padding initializer bias activation Hf Hk Hs.
  unfold Conv_init.
  destruct (Z.leb_spec size 0); [lia |].
  destruct (Z.leb_spec stride 0); [lia |].
  destruct (Z.leb_spec filters 0); [lia | reflexivity].
Qed.

Lemma Downsample_init_inv :
  forall self filters size strides padding norm_type activation name d,
    Downsample.init self filters size strides padding norm_type activation name
    = Ok d ->
    exists l act,
      stored_norm_layer norm_type l
      /\ get_activation activation = Ok act
      /\ d = {| Downsample.this := self;
                Downsample.name := name;
                Downsample.norm_type := norm_type;
                Downsample.norm_layer := l;
                Downsample.conv2d :=
                  {| filters := filters; kernel_size := size;
                     strides := strides; padding := padding;
                     kernel_initializer := random_normal_initializer 0 (2 # 100);
                     use_bias := negb (truthy norm_type);
                     conv_activation := None |};
                Downsample.activation := act |}.
Proof.
  intros self filters size strides padding norm_type activation name d.
  unfold Downsample.init, stored_norm_layer.
  destruct (Layer_init name) as [[] | e]; cbn [Py.bind]; [| discriminate].
  destruct (truthy norm_type) eqn:Htruthy; cbn [Py.bind negb].
  - destruct (get_norm_layer norm_type) as [layer | e] eqn:Hlayer;
      cbn [Py.bind]; [| discriminate].
    destruct (Conv2D_init _ _ _ _ _ _ _) as [c | e] eqn:Hc; cbn [Py.bind];
      [| discriminate].
    apply Conv_init_inv in Hc as (_ & _ & _ & ->).
    destruct (get_activation activation) as [act | e]; cbn [Py.bind];
      [| discriminate].
    intros Hd. injection Hd as <-.
    exists (Some layer), act. split; [| split]; try reflexivity.
    exists layer. split; reflexivity.
  - destruct (Conv2D_init _ _ _ _ _ _ _) as [c | e] eqn:Hc; cbn [Py.bind];
      [| discriminate].
    apply Conv_init_inv in Hc as (_ & _ & _ & ->).
    destruct (get_activation activation) as [act | e]; cbn [Py.bind];
      [| discriminate].
    intros Hd. injection Hd as <-.
    exists None, act. repeat split.
Qed.

(** What Keras has accepted when a sampling layer was constructed. *)
Lemma Downsample_init_positive :
  forall self filters size stride padding norm_type activation name d,
    Downsample.init self filters size stride padding norm_type activation name
    = Ok d ->
    has_slash name = false /\ 1 <= filters /\ 1 <= size /\ 1 <= stride.
Proof.
  intros self filters size stride padding norm_type activation name d.
  unfold Downsample.init.
  destruct (Layer_init name) as [[] | e] eqn:Hname; cbn [Py.bind];
    [| discriminate].
  apply Layer_init_inv in Hname.
  destruct (if truthy norm_type
            then l <- get_norm_layer norm_type;; Ok (Some l, false)
            else Ok (None, true)) as [[l b] | e]; cbn [Py.bind];
    [| discriminate].
  destruct (Conv2D_init _ _ _ _ _ _ _) as [c | e] eqn:Hc; cbn [Py.bind];
    [| discriminate].
  apply Conv_init_inv in Hc as (Hf & Hk & Hs & _).
  intros _. repeat split; assumption.
Qed.

Lemma Upsample_init_inv :
  forall self filters size strides padding norm_type apply_dropout activation
         name u,
    Upsample.init self filters size strides padding norm_type apply_dropout
      activation name = Ok u ->
    exists l act,
      stored_norm_layer norm_type l
      /\ get_activation activation = Ok act
      /\ u = {| Upsample.this := self;
                Upsample.name := name;
                Upsample.norm_type := norm_type;
                Upsample.norm_layer := l;
                Upsample.apply_dropout := apply_dropout;
                Upsample.conv2dtranspose :=
                  {| filters := filters; kernel_size := size;
                     strides := strides; padding := padding;
                     kernel_initializer := random_normal_initializer 0 (2 # 100);
                     use_bias := negb (truthy norm_type);
                     conv_activation := None |};
                Upsample.dropout :=
                  if apply_dropout then Some {| rate := 1 # 2 |} else None;
                Upsample.activation := act |}.
Proof.
  intros self filters size strides padding norm_type apply_dropout activation
         name u.
  unfold Upsample.init, stored_norm_layer.
  destruct (Layer_init name) as [[] | e]; cbn [Py.bind]; [| discriminate].
  destruct (truthy norm_type) eqn:Htruthy; cbn [Py.bind negb].
  - destruct (get_norm_layer norm_type) as [layer | e] eqn:Hlayer;
      cbn [Py.bind]; [| discriminate].
    destruct (Conv2DTranspose_init _ _ _ _ _ _ _) as [c | e] eqn:Hc;
      cbn [Py.bind]; [| discriminate].
    apply Conv_init_inv in Hc as (_ & _ & _ & ->).
    destruct (get_activation activation) as [act | e]; cbn [Py.bind];
      [| discriminate].
    intros Hu. injection Hu as <-.
    exists (Some layer), act. split; [| split]; try reflexivity.
    exists layer. split; reflexivity.
  - destruct (Conv2DTranspose_init _ _ _ _ _ _ _) as [c | e] eqn:Hc;
      cbn [Py.bind]; [| discriminate].
    apply Conv_init_inv in Hc as (_ & _ & _ & ->).
    destruct (get_activation activation) as [act | e]; cbn [Py.bind];
      [| discriminate].
    intros Hu. injection Hu as <-.
    exists None, act. repeat split.
Qed.

Lemma Upsample_init_positive :
  forall self filters size stride padding norm_type apply_dropout activation
         name u,
    Upsample.init self filters size stride padding norm_type apply_dropout
      activation name = Ok u ->
    has_slash name = false /\ 1 <= filters /\ 1 <= size /\ 1 <= stride.
Proof.
  intros self filters size stride padding norm_type apply_dropout activation
         name u.
  unfold Upsample.init.
  destruct (Layer_init name) as [[] | e] eqn:Hname; cbn [Py.bind];
    [| discriminate].
  apply Layer_init_inv in Hname.
  destruct (if truthy norm_type
            then l <- get_norm_layer norm_type;; Ok (Some l, false)
            else Ok (None, true)) as [[l b] | e]; cbn [Py.bind];
    [| discriminate].
  destruct (Conv2DTranspose_init _ _ _ _ _ _ _) as [c | e] eqn:Hc;
    cbn [Py.bind]; [| discriminate].
  apply Conv_init_inv in Hc as (Hf & Hk & Hs & _).
  intros _. repeat split; assumption.
Qed.

Lemma Downsample_init_ok :
  forall self filters size stride padding norm_type activation name l act,
    has_slash name = false ->
    1 <= filters -> 1 <= size -> 1 <= stride ->
    stored_norm_layer norm_type l ->
    get_activation activation = Ok act ->
    Downsample.init self filters size stride padding norm_type activation name
    = Ok (Downsample_built self filters size stride padding norm_type l act
            name).
Proof.
  intros self filters size stride padding norm_type activation name l act
         Hname Hf Hk Hs Hl Hact.
  unfold Downsample.init, Conv2D_init, stored_norm_layer in *.
  rewrite (Layer_init_ok _ Hname). cbn [Py.bind].
  destruct (truthy norm_type) eqn:Ht.
  - destruct Hl as (layer & -> & ->). cbn [Py.bind].
    rewrite Conv_init_ok by assumption. cbn [Py.bind]. rewrite Hact.
    cbn [Py.bind]. unfold Downsample_built. now rewrite Ht.
  - subst l. cbn [Py.bind].
    rewrite Conv_init_ok by assumption. cbn [Py.bind]. rewrite Hact.
    cbn [Py.bind]. unfold Downsample_built. now rewrite Ht.
Qed.

Lemma Upsample_init_ok :
  forall self filters size stride padding norm_type apply_dropout activation
         name l act,
    has_slash name = false ->
    1 <= filters -> 1 <= size -> 1 <= stride ->
    stored_norm_layer norm_type l ->
    get_activation activation = Ok act ->
    Upsample.init self filters size stride padding norm_type apply_dropout
      activation name
    = Ok (Upsample_built self filters size stride padding norm_type l
            apply_dropout act name).
Proof.
  intros self filters size stride padding norm_type apply_dropout activation
         name l act Hname Hf Hk Hs Hl Hact.
  unfold Upsample.init, Conv2DTranspose_init, stored_norm_layer in *.
  rewrite (Layer_init_ok _ Hname). cbn [Py.bind].
  destruct (truthy norm_type) eqn:Ht.
  - destruct Hl as (layer & -> & ->). cbn [Py.bind].
    rewrite Conv_init_ok by assumption. cbn [Py.bind]. rewrite Hact.
    cbn [Py.bind]. unfold Upsample_built. now rewrite Ht.
  - subst l. cbn [Py.bind].
    rewrite Conv_init_ok by assumption. cbn [Py.bind]. rewrite Hact.
    cbn [Py.bind]. unfold Upsample_built. now rewrite Ht.
Qed.

Lemma stored_instance_norm :
  stored_norm_layer (Some "instancenorm") instance_norm_layer.
Proof. cbn. eexists. split; reflexivity. Qed.

(** A stored layer is present exactly when [norm_type] is truthy. *)
Lemma stored_norm_layer_present : forall norm_type l,
  stored_norm_layer norm_type l ->
  (truthy norm_type = true <-> exists layer, l = Some layer).
Proof.
  intros norm_type l. unfold stored_norm_layer.
  destruct (truthy norm_type).
  - intros (layer & _ & ->). split; [eauto | reflexivity].
  - intros ->. split; [discriminate | intros (layer & Hl); discriminate].
Qed.

(** C10.  In [Downsample] and in [Upsample] alike, a layer that was
    constructed has [use_bias] set on its (transposed) convolution exactly
    when [norm_type] is [None] or otherwise falsy, and cleared exactly when
    it holds a normalization layer. *)
Theorem use_bias_iff_no_normalization :
  (forall self filters size strides padding norm_type activation name d,
      Downsample.init self filters size strides padding norm_type activation
        name = Ok d ->
      use_bias (Downsample.conv2d d) = negb (truthy norm_type)
      /\ (use_bias (Downsample.conv2d d) = false
          <-> exists layer, Downsample.norm_layer d = Some layer))
  /\ (forall self filters size strides padding norm_type apply_dropout
             activation name u,
         Upsample.init self filters size strides padding norm_type
           apply_dropout activation name = Ok u ->
         use_bias (Upsample.conv2dtranspose u) = negb (truthy norm_type)
         /\ (use_bias (Upsample.conv2dtranspose u) = false
             <-> exists layer, Upsample.norm_layer u = Some layer)).
Proof.
  split.
  - intros self filters size strides padding norm_type activation name d Hd.
    apply Downsample_init_inv in Hd as (l & act & Hl & _ & ->).
    cbn. split; [reflexivity |].
    rewrite <- (stored_norm_layer_present _ _ Hl).
    destruct (truthy norm_type); cbn; split; congruence.
  - intros self filters size strides padding norm_type apply_dropout
           activation name u Hu.
    apply Upsample_init_inv in Hu as (l & act & Hl & _ & ->).
    cbn. split; [reflexivity |].
    rewrite <- (stored_norm_layer_present _ _ Hl).
    destruct (truthy norm_type); cbn; split; congruence.
Qed.

Lemma use_bias_iff_no_normalization_witness :
  (exists d,
      Downsample.init "D.downsample_1" 64 4 2 same None "lrelu" "downsample_1"
      = Ok d
      /\ use_bias (Downsample.conv2d d) = true)
  /\ (exists u,
         Upsample.init "G.upsample_1" 128 3 2 same (Some "instancenorm") false
           "relu" "upsample_1" = Ok u
         /\ use_bias (Upsample.conv2dtranspose u) = false).
Proof.
  split; eexists; (split; [reflexivity |]).
  - exact (proj1 (proj1 use_bias_iff_no_normalization
                    "D.downsample_1" 64 4 2 same None "lrelu" "downsample_1"
                    _ eq_refl)).
  - exact (proj1 (proj2 use_bias_iff_no_normalization
                    "G.upsample_1" 128 3 2 same (Some "instancenorm") false
                    "relu" "upsample_1" _ eq_refl)).
Defined.

(** ** The forward pass of the layers *)

(** C5.  A constructed [Downsample] applies to every input exactly its
    convolution (with the strides it was given), then the normalization
    layer when, and only when, [norm_type] is truthy (none for [None]),
    then the activation, in this order, and returns the result. *)
Theorem Downsample_call_order :
  forall self filters size stride padding norm_type activation name d,
    Downsample.init self filters size stride padding norm_type activation
      name = Ok d ->
    exists l act,
      stored_norm_layer norm_type l
      /\ get_activation activation = Ok act
      /\ strides (Downsample.conv2d d) = stride
      /\ forall (T : Type) (B : Backend T) (x : T),
           Downsample.call d x
           = Ok (Activation_apply act
                   (optional_norm (attr self "norm_layer") l
                      (keras_Conv2D (attr self "conv2d")
                         (Downsample.conv2d d) x))).
Proof.
  intros self filters size stride padding norm_type activation name d Hd.
  apply Downsample_init_inv in Hd as (l & act & Hl & Hact & ->).
  exists l, act. repeat split; try assumption.
  intros T B x. unfold Downsample.call. cbn.
  unfold stored_norm_layer in Hl.
  destruct (truthy norm_type).
  - destruct Hl as (layer & _ & ->). reflexivity.
  - subst l. reflexivity.
Qed.

Lemma Downsample_call_order_witness :
  exists d,
    Downsample.init "D.downsample_2" 128 4 2 same (Some "instancenorm")
      "lrelu" "downsample_2" = Ok d
    /\ Downsample.call (B := ShapeBackend.backend) d (Some [1; 128; 128; 64])
       = Ok (keras_LeakyReLU (2 # 10)
               (InstanceNormalization.apply "D.downsample_2.norm_layer"
                  (InstanceNormalization.init
                     InstanceNormalization.epsilon_default)
                  (keras_Conv2D "D.downsample_2.conv2d"
                     (Downsample.conv2d d) (Some [1; 128; 128; 64])))).
Proof.
  eexists. split; [reflexivity |].
  destruct (Downsample_call_order "D.downsample_2" 128 4 2 same
              (Some "instancenorm") "lrelu" "downsample_2" _ eq_refl)
    as (l & act & Hl & Hact & _ & Hcall).
  rewrite Hcall.
  cbn in Hl. destruct Hl as (layer & Hlayer & ->).
  injection Hlayer as <-. injection Hact as <-. reflexivity.
Defined.

(** C6.  A constructed [Upsample] applies to every input exactly its
    transposed convolution, then the normalization layer when, and only
    when, [norm_type] is truthy, then dropout when, and only when,
    [apply_dropout] is true, then the activation, in this order, and
    returns the result. *)
Theorem Upsample_call_order :
  forall self filters size stride padding norm_type apply_dropout activation
         name u,
    Upsample.init self filters size stride padding norm_type apply_dropout
      activation name = Ok u ->
    exists l act,
      stored_norm_layer norm_type l
      /\ get_activation activation = Ok act
      /\ forall (T : Type) (B : Backend T) (x : T),
           Upsample.call u x
           = Ok (Activation_apply act
                   (optional_dropout (attr self "dropout")
                      (if apply_dropout then Some {| rate := 1 # 2 |} else None)
                      (optional_norm (attr self "norm_layer") l
                         (keras_Conv2DTranspose (attr self "conv2dtranspose")
                            (Upsample.conv2dtranspose u) x)))).
Proof.
  intros self filters size stride padding norm_type apply_dropout activation
         name u Hu.
  apply Upsample_init_inv in Hu as (l & act & Hl & Hact & ->).
  exists l, act. repeat split; try assumption.
  intros T B x. unfold Upsample.call. cbn.
  unfold stored_norm_layer in Hl.
  destruct (truthy norm_type).
  - destruct Hl as (layer & _ & ->). destruct apply_dropout; reflexivity.
  - subst l. destruct apply_dropout; reflexivity.
Qed.

Lemma Upsample_call_order_witness :
  exists u,
    Upsample.init "P.upsample_1" 512 4 2 same (Some "batchnorm") true "relu"
      "upsample_1" = Ok u
    /\ Upsample.call (B := ShapeBackend.backend) u (Some [1; 1; 1; 512])
       = Ok (keras_ReLU
               (keras_Dropout "P.upsample_1.dropout" {| rate := 1 # 2 |}
                  (keras_BatchNormalization "P.upsample_1.norm_layer"
                     (keras_Conv2DTranspose "P.upsample_1.conv2dtranspose"
                        (Upsample.conv2dtranspose u) (Some [1; 1; 1; 512]))))).
Proof.
  eexists. split; [reflexivity |].
  destruct (Upsample_call_order "P.upsample_1" 512 4 2 same
              (Some "batchnorm") true "relu" "upsample_1" _ eq_refl)
    as (l & act & Hl & Hact & Hcall).
  rewrite Hcall.
  cbn in Hl. destruct Hl as (layer & Hlayer & ->).
  injection Hlayer as <-. injection Hact as <-. reflexivity.
Defined.

Lemma ResNetBlock_init_inv :
  forall self filters size stride padding name r,
    ResNetBlock.init self filters size stride padding name = Ok r ->
    1 <= filters /\ 1 <= size /\ 1 <= stride
    /\ r = ResNetBlock_built self filters size stride padding.
Proof.
  intros self filters size stride padding name r. unfold ResNetBlock.init.
  destruct (Conv2D_init _ _ _ _ _ _ _) as [c | e] eqn:Hc; cbn [Py.bind];
    [| discriminate].
  apply Conv_init_inv in Hc as (Hf & Hk & Hs & ->).
  intros Hr. injection Hr as <-. repeat split; assumption.
Qed.

Lemma ResNetBlock_init_ok :
  forall self filters size stride padding name,
    1 <= filters -> 1 <= size -> 1 <= stride ->
    ResNetBlock.init self filters size stride padding name
    = Ok (ResNetBlock_built self filters size stride padding).
Proof.
  intros self filters size stride padding name Hf Hk Hs.
  unfold ResNetBlock.init, Conv2D_init.
  now rewrite Conv_init_ok by assumption.
Qed.

(** C3.  For every input [x], a constructed [ResNetBlock] returns
    [F x + x]: [F] pads by reflection with [(size - 1) / 2] rows and
    columns, convolves, normalizes per instance, applies a ReLU, pads
    again, convolves again and normalizes again; the input is added
    unchanged.  For an odd kernel size [2 m + 1] (below [2^53], where
    Python's division is exact) the padding is [m]. *)
Theorem ResNetBlock_call_residual :
  forall self filters size stride padding name r
         (T : Type) (B : Backend T) (x : T),
    ResNetBlock.init self filters size stride padding name = Ok r ->
    ResNetBlock.call r x = tensor_add (ResNetBlock_branch r x) x
    /\ kernel_size (ResNetBlock.conv2d_1 r) = ResNetBlock.size r
    /\ kernel_size (ResNetBlock.conv2d_2 r) = ResNetBlock.size r
    /\ ResNetBlock.size r = size
    /\ (forall m, 0 <= m -> size = 2 * m + 1 -> size < 2 ^ 53 ->
        Py.int_truediv (ResNetBlock.size r - 1) 2 = m).
Proof.
  intros self filters size stride padding name r T B x Hr.
  apply ResNetBlock_init_inv in Hr as (_ & _ & _ & ->).
  repeat split.
  intros m Hm -> _. cbn [ResNetBlock.size ResNetBlock_built].
  unfold Py.int_truediv.
  replace (2 * m + 1 - 1) with (m * 2) by lia.
  apply Z.quot_mul. lia.
Qed.

Lemma ResNetBlock_call_residual_witness :
  exists r,
    ResNetBlock.init "G.resnetblock_1" 256 3 1 valid "resnetblock_1" = Ok r
    /\ ResNetBlock.call (B := ShapeBackend.backend) r (Some [1; 64; 64; 256])
       = tensor_add
           (ResNetBlock_branch (B := ShapeBackend.backend) r
              (Some [1; 64; 64; 256]))
           (Some [1; 64; 64; 256])
    /\ Py.int_truediv (ResNetBlock.size r - 1) 2 = 1.
Proof.
  eexists. split; [reflexivity |].
  destruct (ResNetBlock_call_residual "G.resnetblock_1" 256 3 1 valid
              "resnetblock_1" _ ShapeBackend.tensor ShapeBackend.backend
              (Some [1; 64; 64; 256]) eq_refl)
    as (Hcall & _ & _ & _ & Hpad).
  split; [exact Hcall |].
  exact (Hpad 1 ltac:(lia) eq_refl ltac:(lia)).
Defined.

(** ** The two models as pipelines *)

Lemma ResNetGenerator_call_run :
  forall (g : ResNetGenerator.t) (T : Type) (B : Backend T) (x : T),
    ResNetGenerator.call g x = run (ResNetGenerator_stages g) x.
Proof. reflexivity. Qed.

Lemma Discriminator_call_run :
  forall (d : Discriminator.t) (T : Type) (B : Backend T) (x : T),
    Discriminator.call d x = run (Discriminator_stages d) x.
Proof. reflexivity. Qed.

(** The constructor of the generator goes through whenever Keras accepts
    the name, the filters and the output channels: the sampling layers it
    builds are given literal norm types and the default activations. *)
Lemma ResNetGenerator_init_ok :
  forall self first_filters output_channels norm_type name,
    has_slash name = false ->
    1 <= first_filters -> 1 <= output_channels ->
    ResNetGenerator.init self first_filters output_channels norm_type name
    = Ok (ResNetGenerator_built self first_filters output_channels name).
Proof.
  intros self ff oc norm_type name Hname Hff Hoc.
  unfold ResNetGenerator.init, ResNetGenerator.block, Conv2D_init.
  rewrite (Layer_init_ok _ Hname). cbn [Py.bind].
  rewrite (Downsample_init_ok _ _ _ _ _ _ _ _ instance_norm_layer
             (LeakyReLU (2 # 10)))
    by (first [reflexivity | exact stored_instance_norm | lia]).
  cbn [Py.bind].
  rewrite (Downsample_init_ok _ _ _ _ _ _ _ _ instance_norm_layer
             (LeakyReLU (2 # 10)))
    by (first [reflexivity | exact stored_instance_norm | lia]).
  cbn [Py.bind].
  rewrite (Downsample_init_ok _ _ _ _ _ _ _ _ instance_norm_layer
             (LeakyReLU (2 # 10)))
    by (first [reflexivity | exact stored_instance_norm | lia]).
  cbn [Py.bind].
  do 9 (rewrite ResNetBlock_init_ok
          by (first [reflexivity | unfold ResNetBlock.size_default,
                                     ResNetBlock.strides_default; lia]);
        cbn [Py.bind]).
  rewrite (Upsample_init_ok _ _ _ _ _ _ _ _ _ instance_norm_layer ReLU)
    by (first [reflexivity | exact stored_instance_norm | lia]).
  cbn [Py.bind].
  rewrite (Upsample_init_ok _ _ _ _ _ _ _ _ _ instance_norm_layer ReLU)
    by (first [reflexivity | exact stored_instance_norm | lia]).
  cbn [Py.bind].
  rewrite Conv_init_ok by lia. reflexivity.
Qed.

Lemma ResNetGenerator_init_inv :
  forall self first_filters output_channels norm_type name g,
    ResNetGenerator.init self first_filters output_channels norm_type name
    = Ok g ->
    has_slash name = false /\ 1 <= first_filters /\ 1 <= output_channels
    /\ g = ResNetGenerator_built self first_filters output_channels name.
Proof.
  intros self ff oc norm_type name g Hg.
  assert (H : has_slash name = false /\ 1 <= ff /\ 1 <= oc).
  { revert Hg. unfold ResNetGenerator.init.
    destruct (Layer_init name) as [[] | e] eqn:Hname; cbn [Py.bind];
      [| discriminate].
    apply Layer_init_inv in Hname.
    destruct (Downsample.init (attr self "downsample_1") _ _ _ _ _ _ _)
      as [d1 | e] eqn:H1; cbn [Py.bind]; [| discriminate].
    apply Downsample_init_positive in H1 as (_ & Hff & _).
    repeat match goal with
           | |- (_ <- Downsample.init ?a ?b ?c ?d ?e ?f ?g ?h ;; _) = Ok _
                -> _ =>
               destruct (Downsample.init a b c d e f g h); cbn [Py.bind];
               [| discriminate]
           | |- (_ <- ResNetGenerator.block ?a ?b ?c ;; _) = Ok _ -> _ =>
               destruct (ResNetGenerator.block a b c); cbn [Py.bind];
               [| discriminate]
           | |- (_ <- Upsample.init ?a ?b ?c ?d ?e ?f ?g ?h ?i ;; _) = Ok _
                -> _ =>
               destruct (Upsample.init a b c d e f g h i); cbn [Py.bind];
               [| discriminate]
           end.
    destruct (Conv2D_init oc _ _ _ _ _ _) as [c | e] eqn:Hc; cbn [Py.bind];
      [| discriminate].
    apply Conv_init_inv in Hc as (Hoc & _).
    intros _. repeat split; assumption. }
  destruct H as (Hname & Hff & Hoc).
  rewrite (ResNetGenerator_init_ok _ _ _ norm_type _ Hname Hff Hoc) in Hg.
  injection Hg as <-. repeat split; assumption.
Qed.

Lemma tanh_bounded : forall v : R, (-1 < Activation_R tanh v < 1)%R.
Proof.
  intros v. cbn [Activation_R].
  unfold Rtrigo_def.tanh, sinh, cosh.
  pose proof (exp_pos v) as Ha. pose proof (exp_pos (- v)) as Hb.
  set (a := exp v) in *. set (b := exp (- v)) in *.
  replace ((a - b) / 2 / ((a + b) / 2))%R with ((a - b) / (a + b))%R
    by (field; lra).
  assert (Hab : (0 < a + b)%R) by lra.
  split.
  - apply Rmult_lt_reg_r with (a + b)%R; [exact Hab |].
    unfold Rdiv. rewrite Rmult_assoc, Rinv_l by lra. lra.
  - apply Rmult_lt_reg_r with (a + b)%R; [exact Hab |].
    unfold Rdiv. rewrite Rmult_assoc, Rinv_l by lra. lra.
Qed.

(** C1.  Whatever its arguments, provided Keras accepts them (a name
    without "/", at least one filter and one output channel), the
    generator that is constructed computes its output, for every input, by
    these stages in this order: reflection padding by 3 on the two spatial
    dimensions, three [Downsample] stages, nine [ResNetBlock]s, two
    [Upsample] stages, reflection padding by 3 again and a final
    convolution whose activation is "tanh", a function with values
    strictly between -1 and 1; the forward pass returns. *)
Theorem ResNetGenerator_call_pipeline :
  forall self first_filters output_channels norm_type name,
  has_slash name = false ->
  1 <= first_filters -> 1 <= output_channels ->
  exists g,
    ResNetGenerator.init self first_filters output_channels norm_type name
    = Ok g
    /\ ResNetGenerator_stages g
       = ([ ReflectPad 3;
            Down (ResNetGenerator.downsample_1 g);
            Down (ResNetGenerator.downsample_2 g);
            Down (ResNetGenerator.downsample_3 g) ]
          ++ map Res (ResNetGenerator_blocks g)
          ++ [ Up (ResNetGenerator.upsample_1 g);
               Up (ResNetGenerator.upsample_2 g);
               ReflectPad 3;
               Conv (attr self "last_conv2d")
                    (ResNetGenerator.last_conv2d g) ])%list
    /\ List.length (ResNetGenerator_blocks g) = 9%nat
    /\ conv_activation (ResNetGenerator.last_conv2d g) = Some "tanh"%string
    /\ get_activation "tanh" = Ok tanh
    /\ (forall v : R, (-1 < Activation_R tanh v < 1)%R)
    /\ forall (T : Type) (B : Backend T) (inputs : T),
         ResNetGenerator.call g inputs = run (ResNetGenerator_stages g) inputs
         /\ exists y, ResNetGenerator.call g inputs = Ok y.
Proof.
  intros self first_filters output_channels norm_type name Hname Hff Hoc.
  eexists. split.
  { apply ResNetGenerator_init_ok; assumption. }
  split; [reflexivity |].
  split; [reflexivity |].
  split; [reflexivity |].
  split; [reflexivity |].
  split; [exact tanh_bounded |].
  intros T B inputs. split; [reflexivity |].
  eexists. reflexivity.
Qed.

Lemma ResNetGenerator_call_pipeline_witness :
  exists g,
    ResNetGenerator.init "G" 64 3 (Some "instancenorm") "resnet_generator"
    = Ok g
    /\ List.length (ResNetGenerator_blocks g) = 9%nat
    /\ ResNetGenerator.call (B := ShapeBackend.backend) g
         (Some [1; 256; 256; 3])
       = run (B := ShapeBackend.backend) (ResNetGenerator_stages g)
           (Some [1; 256; 256; 3]).
Proof.
  destruct (ResNetGenerator_call_pipeline "G" 64 3 (Some "instancenorm")
              "resnet_generator" eq_refl ltac:(lia) ltac:(lia))
    as (g & Hg & _ & Hblocks & _ & _ & _ & Hcall).
  exists g. split; [exact Hg |]. split; [exact Hblocks |].
  exact (proj1 (Hcall ShapeBackend.tensor ShapeBackend.backend
                  (Some [1; 256; 256; 3]))).
Defined.

(** ** Shapes *)

Section Shapes.

Import ShapeBackend.

Lemma broadcast_dim_refl : forall a, broadcast_dim a a = Some a.
Proof. intros a. unfold broadcast_dim. now rewrite Z.eqb_refl. Qed.

Lemma broadcast_dim_one_r : forall a, broadcast_dim a 1 = Some a.
Proof.
  intros a. unfold broadcast_dim.
  destruct (Z.eqb a 1) eqn:Ha; [reflexivity |].
  reflexivity.
Qed.

Lemma reduce_shape_spatial : forall n h w c,
  reduce_shape [1; 2] true [n; h; w; c] = Some [n; 1; 1; c].
Proof. reflexivity. Qed.

Lemma broadcast_moments : forall n h w c,
  broadcast (Some [n; h; w; c]) (Some [n; 1; 1; c]) = Some [n; h; w; c].
Proof.
  intros n h w c. unfold broadcast. cbn [rev app broadcast_rev].
  now rewrite !broadcast_dim_refl, !broadcast_dim_one_r.
Qed.

Lemma broadcast_channels_l : forall n h w c,
  broadcast (Some [c]) (Some [n; h; w; c]) = Some [n; h; w; c].
Proof.
  intros n h w c. unfold broadcast. cbn [rev app broadcast_rev].
  now rewrite broadcast_dim_refl.
Qed.

Lemma broadcast_channels_r : forall n h w c,
  broadcast (Some [n; h; w; c]) (Some [c]) = Some [n; h; w; c].
Proof.
  intros n h w c. unfold broadcast. cbn [rev app broadcast_rev].
  now rewrite broadcast_dim_refl.
Qed.

Lemma broadcast_same : forall n h w c,
  broadcast (Some [n; h; w; c]) (Some [n; h; w; c]) = Some [n; h; w; c].
Proof.
  intros n h w c. unfold broadcast. cbn [rev app broadcast_rev].
  now rewrite !broadcast_dim_refl.
Qed.

(** Instance normalization keeps the shape of a rank-4 tensor: the moments
    have shape [n; 1; 1; c] and the two variables shape [c], and both
    broadcast against [n; h; w; c]. *)
Lemma InstanceNormalization_shape : forall this layer n h w c,
  InstanceNormalization.apply (A := arith) this layer (Some [n; h; w; c])
  = Some [n; h; w; c].
Proof.
  intros this layer n h w c.
  unfold InstanceNormalization.apply, InstanceNormalization.call,
    InstanceNormalization.build.
  cbn [tf_nn_moments tensor_shape add_weight tf_math_rsqrt tensor_add
       tensor_sub tensor_mul tensor_add_scalar arith on_shape
       InstanceNormalization.scale InstanceNormalization.offset].
  rewrite reduce_shape_spatial.
  change (last_slice [n; h; w; c]) with [c].
  now rewrite !broadcast_moments, broadcast_channels_l, broadcast_channels_r.
Qed.

Lemma NormLayer_shape : forall this l n h w c,
  NormLayer_apply (B := backend) this l (Some [n; h; w; c])
  = Some [n; h; w; c].
Proof.
  intros this [| layer] n h w c; [reflexivity |].
  apply InstanceNormalization_shape.
Qed.

Lemma Activation_shape : forall a x,
  Activation_apply (B := backend) a x = x.
Proof. intros [| alpha |] x; reflexivity. Qed.

Ltac decide_tests :=
  repeat match goal with
         | |- context [?a <? ?b] => destruct (Z.ltb_spec a b); try lia
         | |- context [?a <=? ?b] => destruct (Z.leb_spec a b); try lia
         end.

(** Reflection padding by [p] of an image batch: defined when the batch and
    the channels are not empty and [p] is below both spatial sizes. *)
Lemma reflect_pad_shape : forall n h w c p,
  0 < n -> 0 < c -> 0 <= p -> p < h -> p < w ->
  tf_pad (Backend := backend) (Some [n; h; w; c]) [(0, 0); (p, p); (p, p); (0, 0)]
    REFLECT
  = Some [n; h + 2 * p; w + 2 * p; c].
Proof.
  intros n h w c p Hn Hc Hp Hh Hw.
  cbn [tf_pad backend on_shape pad_shape]. unfold pad_ok.
  decide_tests. cbn [andb option_map].
  repeat (f_equal; try lia).
Qed.

Lemma conv_shape_image : forall c s s',
  conv_shape c s = Some s' ->
  exists n h w, s' = [n; h; w; filters c].
Proof.
  intros c s s'. unfold conv_shape.
  destruct s as [| n [| h [| w [| ci [| ? ?]]]]]; try discriminate.
  destruct ((1 <=? kernel_size c) && (1 <=? strides c) && (1 <=? filters c)
            && (1 <=? ci));
    [| discriminate].
  destruct (conv_length _ _ _ h) as [h' |]; [| discriminate].
  destruct (conv_length _ _ _ w) as [w' |]; [| discriminate].
  intros Hs. injection Hs as <-. eauto.
Qed.

Lemma deconv_shape_image : forall c s s',
  deconv_shape c s = Some s' ->
  exists n h w, s' = [n; h; w; filters c].
Proof.
  intros c s s'. unfold deconv_shape.
  destruct s as [| n [| h [| w [| ci [| ? ?]]]]]; try discriminate.
  destruct ((1 <=? kernel_size c) && (1 <=? strides c) && (1 <=? filters c)
            && (1 <=? ci));
    [| discriminate].
  intros Hs. injection Hs as <-. eauto.
Qed.

Lemma stored_norm_layer_held : forall norm_type l,
  stored_norm_layer norm_type l -> norm_layer_held norm_type l.
Proof.
  intros norm_type l Hl Ht. now apply (stored_norm_layer_present _ _ Hl).
Qed.

Lemma Downsample_call_shape : forall d s s',
  norm_layer_held (Downsample.norm_type d) (Downsample.norm_layer d) ->
  conv_shape (Downsample.conv2d d) s = Some s' ->
  Downsample.call (B := backend) d (Some s) = Ok (Some s').
Proof.
  intros d s s' Hheld Hconv.
  destruct (conv_shape_image _ _ _ Hconv) as (n & h & w & ->).
  unfold Downsample.call.
  cbn [keras_Conv2D backend on_shape]. rewrite Hconv.
  destruct (truthy (Downsample.norm_type d)) eqn:Ht.
  - destruct (Hheld Ht) as (layer & ->).
    rewrite NormLayer_shape. cbn [Py.bind]. now rewrite Activation_shape.
  - cbn [Py.bind]. now rewrite Activation_shape.
Qed.

Lemma Upsample_call_shape : forall u s s',
  norm_layer_held (Upsample.norm_type u) (Upsample.norm_layer u) ->
  (Upsample.apply_dropout u = true -> exists l, Upsample.dropout u = Some l) ->
  deconv_shape (Upsample.conv2dtranspose u) s = Some s' ->
  Upsample.call (B := backend) u (Some s) = Ok (Some s').
Proof.
  intros u s s' Hheld Hdrop Hconv.
  destruct (deconv_shape_image _ _ _ Hconv) as (n & h & w & ->).
  unfold Upsample.call.
  cbn [keras_Conv2DTranspose backend on_shape]. rewrite Hconv.
  destruct (truthy (Upsample.norm_type u)) eqn:Ht.
  - destruct (Hheld Ht) as (layer & ->).
    rewrite NormLayer_shape. cbn [Py.bind].
    destruct (Upsample.apply_dropout u) eqn:Hd.
    + destruct (Hdrop eq_refl) as (l & ->).
      cbn [Py.bind keras_Dropout backend]. now rewrite Activation_shape.
    + cbn [Py.bind]. now rewrite Activation_shape.
  - cbn [Py.bind].
    destruct (Upsample.apply_dropout u) eqn:Hd.
    + destruct (Hdrop eq_refl) as (l & ->).
      cbn [Py.bind keras_Dropout backend]. now rewrite Activation_shape.
    + cbn [Py.bind]. now rewrite Activation_shape.
Qed.

(** A residual block with 3x3 kernels, stride 1 and no padding of its own
    keeps the shape of its input: each reflection padding adds the row and
    the column the convolution that follows removes. *)
Lemma ResNetBlock_call_shape : forall self n h w c,
  0 < n -> 1 < h -> 1 < w -> 0 < c ->
  ResNetBlock.call (B := backend) (ResNetBlock_built self c 3 1 valid)
    (Some [n; h; w; c])
  = Some [n; h; w; c].
Proof.
  intros self n h w c Hn Hh Hw Hc.
  assert (Hconv : forall ci, 0 < ci ->
    conv_shape {| filters := c; kernel_size := 3; strides := 1;
                  padding := valid;
                  kernel_initializer := random_normal_initializer 0 (2 # 100);
                  use_bias := false; conv_activation := None |}
      [n; h + 2 * 1; w + 2 * 1; ci] = Some [n; h; w; c]).
  { intros ci Hci. unfold conv_shape, conv_length.
    cbn [filters kernel_size strides padding].
    decide_tests. cbn [andb]. rewrite !Z.div_1_r.
    repeat (f_equal; try lia). }
  unfold ResNetBlock.call.
  cbn [ResNetBlock.size ResNetBlock_built ResNetBlock.this
       ResNetBlock.conv2d_1 ResNetBlock.conv2d_2 ResNetBlock.ReLU_
       ResNetBlock.instance_norm_1 ResNetBlock.instance_norm_2].
  change (Py.int_truediv (3 - 1) 2) with 1.
  rewrite reflect_pad_shape by lia.
  cbn [keras_Conv2D backend on_shape]. rewrite Hconv by lia.
  rewrite InstanceNormalization_shape, Activation_shape.
  rewrite reflect_pad_shape by lia.
  cbn [on_shape]. rewrite Hconv by lia.
  rewrite InstanceNormalization_shape.
  apply broadcast_same.
Qed.

End Shapes.

Lemma last_cons_default : forall (A : Type) (l : list A) (a d d' : A),
  last (a :: l) d = last (a :: l) d'.
Proof.
  intros A l. induction l as [| b l IH]; intros a d d'; [reflexivity |].
  change (last (b :: l) d = last (b :: l) d'). apply IH.
Qed.

Lemma intermediates_run :
  forall (T : Type) (B : Backend T) (stages : list stage) (x : T) (ys : list T),
    intermediates stages x = Ok ys ->
    run stages x = Ok (last ys x).
Proof.
  intros T B stages. induction stages as [| s rest IH]; intros x ys.
  - cbn. intros Hys. injection Hys as <-. reflexivity.
  - cbn [intermediates run].
    destruct (run_stage s x) as [y | e]; cbn [Py.bind]; [| discriminate].
    destruct (intermediates rest y) as [zs | e] eqn:Hrest; cbn [Py.bind];
      [| discriminate].
    intros Hys. injection Hys as <-.
    rewrite (IH y zs Hrest).
    destruct zs as [| z zs]; [reflexivity |].
    f_equal. change (last (y :: z :: zs) x) with (last (z :: zs) x).
    apply last_cons_default.
Qed.

(** C7, for batches that are not empty.  [INPUT_SHAPE] is (256, 256, 3),
    and on a batch of [bs >= 1] images of that shape the generator built
    with the default arguments returns a tensor of the same shape; its
    forward pass is the run of its stages, and the stages produce, in
    order, the spatial sizes 262 (padding), 256, 128, 64 (the three
    downsampling stages), 64 nine times (the residual blocks), 128, 256
    (the two upsampling stages), 262 (padding) and 256. *)
Theorem ResNetGenerator_shapes : forall (self : ref) (bs : Z),
  0 < bs ->
  INPUT_SHAPE = (256, 256, 3)
  /\ exists g,
       ResNetGenerator.init self ResNetGenerator.first_filters_default
         ResNetGenerator.output_channels_default
         ResNetGenerator.norm_type_default ResNetGenerator.name_default
       = Ok g
       /\ (forall (T : Type) (B : Backend T) (x : T),
              ResNetGenerator.call g x = run (ResNetGenerator_stages g) x)
       /\ ResNetGenerator.call (B := ShapeBackend.backend) g
            (Some (batch_shape bs INPUT_SHAPE))
          = Ok (Some (batch_shape bs INPUT_SHAPE))
       /\ intermediates (B := ShapeBackend.backend)
            (ResNetGenerator_stages g) (Some (batch_shape bs INPUT_SHAPE))
          = Ok (map Some
                  ([ [bs; 262; 262; 3]; [bs; 256; 256; 64];
                     [bs; 128; 128; 128]; [bs; 64; 64; 256] ]
                   ++ repeat [bs; 64; 64; 256] 9
                   ++ [ [bs; 128; 128; 128]; [bs; 256; 256; 64];
                        [bs; 262; 262; 64]; [bs; 256; 256; 3] ])%list).
Proof.
  intros self bs Hbs. split; [reflexivity |].
  exists (ResNetGenerator_built self ResNetGenerator.first_filters_default
            ResNetGenerator.output_channels_default
            ResNetGenerator.name_default).
  split.
  { apply ResNetGenerator_init_ok; [reflexivity | | ];
      unfold ResNetGenerator.first_filters_default,
        ResNetGenerator.output_channels_default; lia. }
  split; [intros T B x; apply ResNetGenerator_call_run |].
  set (g := ResNetGenerator_built self ResNetGenerator.first_filters_default
              ResNetGenerator.output_channels_default
              ResNetGenerator.name_default).
  assert (Hall :
    intermediates (B := ShapeBackend.backend) (ResNetGenerator_stages g)
      (Some (batch_shape bs INPUT_SHAPE))
    = Ok (map Some
            ([ [bs; 262; 262; 3]; [bs; 256; 256; 64];
               [bs; 128; 128; 128]; [bs; 64; 64; 256] ]
             ++ repeat [bs; 64; 64; 256] 9
             ++ [ [bs; 128; 128; 128]; [bs; 256; 256; 64];
                  [bs; 262; 262; 64]; [bs; 256; 256; 3] ])%list)).
  { assert (P1 : run_stage (B := ShapeBackend.backend) (ReflectPad 3)
                   (Some [bs; 256; 256; 3]) = Ok (Some [bs; 262; 262; 3])).
    { apply (f_equal Ok).
      exact (reflect_pad_shape bs 256 256 3 3 Hbs eq_refl
               (fun H => match H with eq_refl => I end) eq_refl eq_refl). }
    assert (D1 : run_stage (B := ShapeBackend.backend)
                   (Down (ResNetGenerator.downsample_1 g))
                   (Some [bs; 262; 262; 3]) = Ok (Some [bs; 256; 256; 64])).
    { apply Downsample_call_shape; [intros _; eexists |]; reflexivity. }
    assert (D2 : run_stage (B := ShapeBackend.backend)
                   (Down (ResNetGenerator.downsample_2 g))
                   (Some [bs; 256; 256; 64]) = Ok (Some [bs; 128; 128; 128])).
    { apply Downsample_call_shape; [intros _; eexists |]; reflexivity. }
    assert (D3 : run_stage (B := ShapeBackend.backend)
                   (Down (ResNetGenerator.downsample_3 g))
                   (Some [bs; 128; 128; 128]) = Ok (Some [bs; 64; 64; 256])).
    { apply Downsample_call_shape; [intros _; eexists |]; reflexivity. }
    assert (R : forall name,
               run_stage (B := ShapeBackend.backend)
                 (Res (ResNetBlock_built (attr self name) 256 3 1 valid))
                 (Some [bs; 64; 64; 256]) = Ok (Some [bs; 64; 64; 256])).
    { intros name. apply (f_equal Ok).
      exact (ResNetBlock_call_shape (attr self name) bs 64 64 256
               Hbs eq_refl eq_refl eq_refl). }
    assert (U1 : run_stage (B := ShapeBackend.backend)
                   (Up (ResNetGenerator.upsample_1 g))
                   (Some [bs; 64; 64; 256]) = Ok (Some [bs; 128; 128; 128])).
    { apply Upsample_call_shape;
        [intros _; eexists; reflexivity | discriminate | reflexivity]. }
    assert (U2 : run_stage (B := ShapeBackend.backend)
                   (Up (ResNetGenerator.upsample_2 g))
                   (Some [bs; 128; 128; 128]) = Ok (Some [bs; 256; 256; 64])).
    { apply Upsample_call_shape;
        [intros _; eexists; reflexivity | discriminate | reflexivity]. }
    assert (P2 : run_stage (B := ShapeBackend.backend) (ReflectPad 3)
                   (Some [bs; 256; 256; 64]) = Ok (Some [bs; 262; 262; 64])).
    { apply (f_equal Ok).
      exact (reflect_pad_shape bs 256 256 64 3 Hbs eq_refl
               (fun H => match H with eq_refl => I end) eq_refl eq_refl). }
    assert (C : run_stage (B := ShapeBackend.backend)
                  (Conv (attr self "last_conv2d")
                     (ResNetGenerator.last_conv2d g))
                  (Some [bs; 262; 262; 64]) = Ok (Some [bs; 256; 256; 3])).
    { reflexivity. }
    change (Some (batch_shape bs INPUT_SHAPE)) with (Some [bs; 256; 256; 3]).
    change (ResNetGenerator_stages g)
      with ([ ReflectPad 3;
              Down (ResNetGenerator.downsample_1 g);
              Down (ResNetGenerator.downsample_2 g);
              Down (ResNetGenerator.downsample_3 g);
              Res (ResNetBlock_built (attr self "resnetblock_1") 256 3 1
                     valid);
              Res (ResNetBlock_built (attr self "resnetblock_2") 256 3 1
                     valid);
              Res (ResNetBlock_built (attr self "resnetblock_3") 256 3 1
                     valid);
              Res (ResNetBlock_built (attr self "resnetblock_4") 256 3 1
                     valid);
              Res (ResNetBlock_built (attr self "resnetblock_5") 256 3 1
                     valid);
              Res (ResNetBlock_built (attr self "resnetblock_6") 256 3 1
                     valid);
              Res (ResNetBlock_built (attr self "resnetblock_7") 256 3 1
                     valid);
              Res (ResNetBlock_built (attr self "resnetblock_8") 256 3 1
                     valid);
              Res (ResNetBlock_built (attr self "resnetblock_9") 256 3 1
                     valid);
              Up (ResNetGenerator.upsample_1 g);
              Up (ResNetGenerator.upsample_2 g);
              ReflectPad 3;
              Conv (attr self "last_conv2d")
                (ResNetGenerator.last_conv2d g) ]).
    cbn [intermediates].
    rewrite P1; cbn [Py.bind]. rewrite D1; cbn [Py.bind].
    rewrite D2; cbn [Py.bind]. rewrite D3; cbn [Py.bind].
    do 9 (rewrite R; cbn [Py.bind]).
    rewrite U1; cbn [Py.bind]. rewrite U2; cbn [Py.bind].
    rewrite P2; cbn [Py.bind]. rewrite C; cbn [Py.bind].
    reflexivity. }
  split; [| exact Hall].
  rewrite ResNetGenerator_call_run.
  rewrite (intermediates_run _ _ _ _ _ Hall). reflexivity.
Qed.

Lemma ResNetGenerator_shapes_witness :
  exists g,
    ResNetGenerator.init "G" 64 3 (Some "instancenorm") "resnet_generator"
    = Ok g
    /\ ResNetGenerator.call (B := ShapeBackend.backend) g
         (Some [1; 256; 256; 3])
       = Ok (Some [1; 256; 256; 3]).
Proof.
  destruct (ResNetGenerator_shapes "G" 1 eq_refl)
    as (_ & g & Hg & _ & Hcall & _).
  exists g. split; [exact Hg | exact Hcall].
Defined.

(** C7, as it is worded, for every batch.  On the empty batch, of shape
    (0, 256, 256, 3), reflection padding has nothing to reflect: TensorFlow
    wants each padding to be smaller than the dimension it pads, the batch
    dimension with its padding of 0 included, and the forward pass ends in
    a shape error where the wording has a tensor of the input's shape. *)
Lemma ResNetGenerator_shapes_empty_batch :
  exists g,
    ResNetGenerator.init "G" ResNetGenerator.first_filters_default
      ResNetGenerator.output_channels_default
      ResNetGenerator.norm_type_default ResNetGenerator.name_default
    = Ok g
    /\ ResNetGenerator.call (B := ShapeBackend.backend) g
         (Some (batch_shape 0 INPUT_SHAPE))
       = Ok None
    /\ ResNetGenerator.call (B := ShapeBackend.backend) g
         (Some (batch_shape 0 INPUT_SHAPE))
       <> Ok (Some (batch_shape 0 INPUT_SHAPE)).
Proof.
  eexists. split; [reflexivity |].
  split; [vm_compute; reflexivity |].
  vm_compute. discriminate.
Qed.

(** ** The discriminator *)

Lemma Discriminator_init_inv :
  forall self first_filters size norm_type name d,
    Discriminator.init self first_filters size norm_type name = Ok d ->
    exists d1 d2 d3 d4,
      Downsample.init (attr self "downsample_1") first_filters size 2 same
        None "lrelu" "downsample_1" = Ok d1
      /\ Downsample.init (attr self "downsample_2") (first_filters * 2) size 2
           same norm_type "lrelu" "downsample_2" = Ok d2
      /\ Downsample.init (attr self "downsample_3") (first_filters * 4) size 2
           same norm_type "lrelu" "downsample_3" = Ok d3
      /\ Downsample.init (attr self "downsample_4") (first_filters * 8) size 1
           valid norm_type "lrelu" "downsample_4" = Ok d4
      /\ d = {| Discriminator.this := self;
                Discriminator.name := name;
                Discriminator.norm_type := norm_type;
                Discriminator.downsample_1 := d1;
                Discriminator.downsample_2 := d2;
                Discriminator.downsample_3 := d3;
                Discriminator.zeropadding2d_1 := ZeroPadding2D_default;
                Discriminator.downsample_4 := d4;
                Discriminator.zeropadding2d_2 := ZeroPadding2D_default;
                Discriminator.conv2d :=
                  {| filters := 1; kernel_size := size; strides := 1;
                     padding := valid;
                     kernel_initializer := random_normal_initializer 0 (2 # 100);
                     use_bias := true; conv_activation := None |} |}.
Proof.
  intros self first_filters size norm_type name d.
  unfold Discriminator.init.
  destruct (Layer_init name) as [[] | e]; cbn [Py.bind]; [| discriminate].
  destruct (Downsample.init (attr self "downsample_1") _ _ _ _ _ _ _)
    as [d1 | e]; cbn [Py.bind]; [| discriminate].
  destruct (Downsample.init (attr self "downsample_2") _ _ _ _ _ _ _)
    as [d2 | e]; cbn [Py.bind]; [| discriminate].
  destruct (Downsample.init (attr self "downsample_3") _ _ _ _ _ _ _)
    as [d3 | e]; cbn [Py.bind]; [| discriminate].
  destruct (Downsample.init (attr self "downsample_4") _ _ _ _ _ _ _)
    as [d4 | e]; cbn [Py.bind]; [| discriminate].
  destruct (Conv2D_init _ _ _ _ _ _ _) as [c | e] eqn:Hc; cbn [Py.bind];
    [| discriminate].
  apply Conv_init_inv in Hc as (_ & _ & _ & ->).
  intros Hd. injection Hd as <-.
  exists d1, d2, d3, d4. repeat split.
Qed.

Lemma Downsample_init_held :
  forall self filters size stride padding norm_type activation name d,
    Downsample.init self filters size stride padding norm_type activation name
    = Ok d ->
    norm_layer_held (Downsample.norm_type d) (Downsample.norm_layer d).
Proof.
  intros self filters size stride padding norm_type activation name d Hd.
  apply Downsample_init_inv in Hd as (l & act & Hl & _ & ->).
  cbn. now apply stored_norm_layer_held.
Qed.

(** A sampling layer that holds its normalization layer returns. *)
Lemma Downsample_call_returns :
  forall (d : Downsample.t) (T : Type) (B : Backend T) (x : T),
    norm_layer_held (Downsample.norm_type d) (Downsample.norm_layer d) ->
    exists y, Downsample.call d x = Ok y.
Proof.
  intros d T B x Hheld. unfold Downsample.call.
  destruct (truthy (Downsample.norm_type d)) eqn:Ht.
  - destruct (Hheld Ht) as (layer & ->). eexists. reflexivity.
  - eexists. reflexivity.
Qed.

(** C2, as the code has it.  A constructed discriminator computes its
    output, for every input, as three [Downsample] stages, a zero padding,
    the fourth [Downsample] stage (stride 1, no padding of its own), a
    second zero padding and one final convolution with a single filter;
    the forward pass returns; whenever the output has a shape it is a
    four-dimensional map with one channel; and with the default filters
    and kernel size a batch of 256x256 images, of at least one channel,
    yields a 30x30 map of scores per image. *)
Theorem Discriminator_call_pipeline :
  forall self first_filters size norm_type name d,
    Discriminator.init self first_filters size norm_type name = Ok d ->
    Discriminator_stages d
    = [ Down (Discriminator.downsample_1 d);
        Down (Discriminator.downsample_2 d);
        Down (Discriminator.downsample_3 d);
        ZeroPad ZeroPadding2D_default;
        Down (Discriminator.downsample_4 d);
        ZeroPad ZeroPadding2D_default;
        Conv (attr self "conv2d") (Discriminator.conv2d d) ]
    /\ filters (Discriminator.conv2d d) = 1
    /\ strides (Downsample.conv2d (Discriminator.downsample_4 d)) = 1
    /\ padding (Downsample.conv2d (Discriminator.downsample_4 d)) = valid
    /\ (forall (T : Type) (B : Backend T) (x : T),
           Discriminator.call d x = run (Discriminator_stages d) x
           /\ exists y, Discriminator.call d x = Ok y)
    /\ (forall x s,
           Discriminator.call (B := ShapeBackend.backend) d x = Ok (Some s) ->
           exists n h w, s = [n; h; w; 1])
    /\ (first_filters = Discriminator.first_filters_default ->
        size = Discriminator.size_default ->
        forall bs c,
          0 < c ->
          Discriminator.call (B := ShapeBackend.backend) d
            (Some [bs; 256; 256; c])
          = Ok (Some [bs; 30; 30; 1])).
Proof.
  intros self first_filters size norm_type name d Hd.
  apply Discriminator_init_inv in Hd
    as (d1 & d2 & d3 & d4 & H1 & H2 & H3 & H4 & ->).
  pose proof (Downsample_init_held _ _ _ _ _ _ _ _ _ H1) as K1.
  pose proof (Downsample_init_held _ _ _ _ _ _ _ _ _ H2) as K2.
  pose proof (Downsample_init_held _ _ _ _ _ _ _ _ _ H3) as K3.
  pose proof (Downsample_init_held _ _ _ _ _ _ _ _ _ H4) as K4.
  split; [reflexivity |]. split; [reflexivity |].
  split.
  { apply Downsample_init_inv in H4 as (l4 & a4 & _ & _ & ->). reflexivity. }
  split.
  { apply Downsample_init_inv in H4 as (l4 & a4 & _ & _ & ->). reflexivity. }
  split; [| split].
  - intros T B x. split; [reflexivity |].
    unfold Discriminator.call.
    cbn [Discriminator.downsample_1 Discriminator.downsample_2
         Discriminator.downsample_3 Discriminator.downsample_4].
    destruct (Downsample_call_returns d1 T B x K1) as (y1 & ->).
    cbn [Py.bind].
    destruct (Downsample_call_returns d2 T B y1 K2) as (y2 & ->).
    cbn [Py.bind].
    destruct (Downsample_call_returns d3 T B y2 K3) as (y3 & ->).
    cbn [Py.bind].
    match goal with
    | |- context [Downsample.call d4 ?z] =>
        destruct (Downsample_call_returns d4 T B z K4) as (y4 & ->)
    end.
    cbn [Py.bind]. eexists. reflexivity.
  - intros x s. unfold Discriminator.call.
    cbn [Discriminator.downsample_1 Discriminator.downsample_2
         Discriminator.downsample_3 Discriminator.downsample_4
         Discriminator.conv2d].
    destruct (Downsample.call d1 x) as [y1 | e]; cbn [Py.bind];
      [| discriminate].
    destruct (Downsample.call d2 y1) as [y2 | e]; cbn [Py.bind];
      [| discriminate].
    destruct (Downsample.call d3 y2) as [y3 | e]; cbn [Py.bind];
      [| discriminate].
    destruct (Downsample.call d4 _) as [y4 | e]; cbn [Py.bind];
      [| discriminate].
    cbn [keras_Conv2D ShapeBackend.backend].
    destruct (keras_ZeroPadding2D _ y4) as [s4 |];
      cbn [ShapeBackend.on_shape]; [| discriminate].
    intros Hs. injection Hs as Hs.
    destruct (conv_shape_image _ _ _ Hs) as (n & h & w & ->). eauto.
  - intros -> -> bs c Hc.
    apply Downsample_init_inv in H1 as (l1 & a1 & _ & _ & E1).
    apply Downsample_init_inv in H2 as (l2 & a2 & _ & _ & E2).
    apply Downsample_init_inv in H3 as (l3 & a3 & _ & _ & E3).
    apply Downsample_init_inv in H4 as (l4 & a4 & _ & _ & E4).
    unfold Discriminator.call.
    cbn [Discriminator.downsample_1 Discriminator.downsample_2
         Discriminator.downsample_3 Discriminator.downsample_4
         Discriminator.conv2d Discriminator.zeropadding2d_1
         Discriminator.zeropadding2d_2 Discriminator.this].
    rewrite (Downsample_call_shape d1 [bs; 256; 256; c] [bs; 128; 128; 64] K1)
      by (rewrite E1; unfold ShapeBackend.conv_shape;
          cbn [Downsample.conv2d kernel_size strides filters padding];
          destruct (Z.leb_spec 1 c); [reflexivity | lia]).
    cbn [Py.bind].
    rewrite (Downsample_call_shape d2 [bs; 128; 128; 64] [bs; 64; 64; 128] K2)
      by (rewrite E2; reflexivity).
    cbn [Py.bind].
    rewrite (Downsample_call_shape d3 [bs; 64; 64; 128] [bs; 32; 32; 256] K3)
      by (rewrite E3; reflexivity).
    cbn [Py.bind].
    change (keras_ZeroPadding2D ZeroPadding2D_default
              (Some [bs; 32; 32; 256]))
      with (Some [bs; 34; 34; 256]).
    rewrite (Downsample_call_shape d4 [bs; 34; 34; 256] [bs; 31; 31; 512] K4)
      by (rewrite E4; reflexivity).
    cbn [Py.bind]. reflexivity.
Qed.

Lemma Discriminator_call_pipeline_witness :
  exists d,
    Discriminator.init "D" 64 4 (Some "instancenorm") "discriminator" = Ok d
    /\ Discriminator.call (B := ShapeBackend.backend) d
         (Some [1; 256; 256; 3])
       = Ok (Some [1; 30; 30; 1]).
Proof.
  eexists. split; [reflexivity |].
  exact (proj2 (proj2 (proj2 (proj2 (proj2 (proj2
           (Discriminator_call_pipeline "D" 64 4 (Some "instancenorm")
              "discriminator" _ eq_refl))))))
           eq_refl eq_refl 1 3 eq_refl).
Defined.

(** C2, as it is worded: four [Downsample] stages, then the padding, then
    the final convolution.  On one 256x256 RGB image the default
    discriminator returns a 30x30 map, the pipeline of the wording a 28x28
    one: the zero padding ahead of the fourth stage is part of the
    computation. *)
Lemma Discriminator_call_not_as_described :
  exists d,
    Discriminator.init "D" 64 4 (Some "instancenorm") "discriminator" = Ok d
    /\ Discriminator.call (B := ShapeBackend.backend) d
         (Some [1; 256; 256; 3])
       = Ok (Some [1; 30; 30; 1])
    /\ run (B := ShapeBackend.backend) (Discriminator_stages_described d)
         (Some [1; 256; 256; 3])
       = Ok (Some [1; 28; 28; 1])
    /\ Discriminator.call (B := ShapeBackend.backend) d
         (Some [1; 256; 256; 3])
       <> run (B := ShapeBackend.backend) (Discriminator_stages_described d)
            (Some [1; 256; 256; 3]).
Proof.
  eexists. split; [reflexivity |].
  split; [vm_compute; reflexivity |].
  split; [vm_compute; reflexivity |].
  vm_compute. discriminate.
Qed.

(** ** Instance normalization over the reals *)

Section InstanceNormalizationReal.

Import RealBackend.

Lemma coord_lt : forall d i, (i < d)%nat -> coord d i = i.
Proof.
  intros d i Hi. unfold coord.
  destruct (Nat.eqb_spec d 1) as [-> | _]; [lia | reflexivity].
Qed.

Lemma coord_one : forall i, coord 1 i = O.
Proof. reflexivity. Qed.

Lemma broadcast_dim_same : forall a, broadcast_dim a a = a.
Proof. intros a. unfold broadcast_dim. now destruct (Nat.eqb a 1). Qed.

Lemma broadcast_dim_one : forall a, broadcast_dim a 1 = a.
Proof.
  intros a. unfold broadcast_dim.
  destruct (Nat.eqb_spec a 1) as [-> | _]; reflexivity.
Qed.

Lemma sum_below_ext : forall n f g,
  (forall m, (m < n)%nat -> f m = g m) -> sum_below n f = sum_below n g.
Proof.
  intros n f g. induction n as [| n IH]; intros Hfg; [reflexivity |].
  cbn [sum_below]. rewrite IH by (intros m Hm; apply Hfg; lia).
  rewrite Hfg by lia. reflexivity.
Qed.

Lemma operand_index_image : forall n h w c b i j k,
  (b < n)%nat -> (i < h)%nat -> (j < w)%nat -> (k < c)%nat ->
  operand_index [n; h; w; c] [b; i; j; k] = [b; i; j; k].
Proof.
  intros. unfold operand_index. cbn [List.length Nat.sub skipn coords].
  now rewrite !coord_lt.
Qed.

Lemma operand_index_moment : forall n c b i j k,
  (b < n)%nat -> (k < c)%nat ->
  operand_index [n; 1%nat; 1%nat; c] [b; i; j; k] = [b; O; O; k].
Proof.
  intros. unfold operand_index. cbn [List.length Nat.sub skipn coords].
  now rewrite !coord_one, !coord_lt by assumption.
Qed.

Lemma operand_index_channel : forall c b i j k,
  (k < c)%nat -> operand_index [c] [b; i; j; k] = [k].
Proof.
  intros. unfold operand_index. cbn [List.length Nat.sub skipn coords].
  now rewrite coord_lt.
Qed.

Lemma broadcast_shape_moment : forall n h w c,
  broadcast_shape [n; h; w; c] [n; 1%nat; 1%nat; c] = [n; h; w; c].
Proof.
  intros. unfold broadcast_shape. cbn [rev app broadcast_rev].
  now rewrite !broadcast_dim_same, !broadcast_dim_one.
Qed.

Lemma broadcast_shape_channel_l : forall n h w c,
  broadcast_shape [c] [n; h; w; c] = [n; h; w; c].
Proof.
  intros. unfold broadcast_shape. cbn [rev app broadcast_rev].
  now rewrite broadcast_dim_same.
Qed.

Lemma broadcast_shape_channel_r : forall n h w c,
  broadcast_shape [n; h; w; c] [c] = [n; h; w; c].
Proof.
  intros. unfold broadcast_shape. cbn [rev app broadcast_rev].
  now rewrite broadcast_dim_same.
Qed.

(** The mean over axes 1 and 2 of an image batch: one value per image and
    channel, the average over the rows and the columns. *)
Lemma reduce_mean_spatial : forall t n h w c,
  shape t = [n; h; w; c] ->
  shape (reduce_mean [1%nat; 2%nat] t) = [n; 1%nat; 1%nat; c]
  /\ forall b i j k,
       value (reduce_mean [1%nat; 2%nat] t) [b; i; j; k]
       = (sum_below h (fun i' => sum_below w (fun j' => value t [b; i'; j'; k]))
          / INR (h * w))%R.
Proof.
  intros [s v] n h w c Hs. cbn [shape] in Hs. subst s.
  split; [reflexivity |].
  intros b i j k.
  cbn [reduce_mean value shape sum_over nth put count fold_right].
  now rewrite Nat.mul_1_r.
Qed.

Lemma pointwise_moment : forall f a m n h w c,
  shape a = [n; h; w; c] -> shape m = [n; 1%nat; 1%nat; c] ->
  shape (pointwise f a m) = [n; h; w; c]
  /\ forall b i j k,
       (b < n)%nat -> (i < h)%nat -> (j < w)%nat -> (k < c)%nat ->
       value (pointwise f a m) [b; i; j; k]
       = f (value a [b; i; j; k]) (value m [b; O; O; k]).
Proof.
  intros f a m n h w c Ha Hm. unfold pointwise. cbn [shape value].
  rewrite Ha, Hm. split; [apply broadcast_shape_moment |].
  intros b i j k Hb Hi Hj Hk.
  now rewrite operand_index_image, operand_index_moment.
Qed.

Lemma pointwise_channel_l : forall f s a n h w c,
  shape s = [c] -> shape a = [n; h; w; c] ->
  shape (pointwise f s a) = [n; h; w; c]
  /\ forall b i j k,
       (b < n)%nat -> (i < h)%nat -> (j < w)%nat -> (k < c)%nat ->
       value (pointwise f s a) [b; i; j; k]
       = f (value s [k]) (value a [b; i; j; k]).
Proof.
  intros f s a n h w c Hs Ha. unfold pointwise. cbn [shape value].
  rewrite Ha, Hs. split; [apply broadcast_shape_channel_l |].
  intros b i j k Hb Hi Hj Hk.
  now rewrite operand_index_image, operand_index_channel.
Qed.

Lemma pointwise_channel_r : forall f a s n h w c,
  shape a = [n; h; w; c] -> shape s = [c] ->
  shape (pointwise f a s) = [n; h; w; c]
  /\ forall b i j k,
       (b < n)%nat -> (i < h)%nat -> (j < w)%nat -> (k < c)%nat ->
       value (pointwise f a s) [b; i; j; k]
       = f (value a [b; i; j; k]) (value s [k]).
Proof.
  intros f a s n h w c Ha Hs. unfold pointwise. cbn [shape value].
  rewrite Ha, Hs. split; [apply broadcast_shape_channel_r |].
  intros b i j k Hb Hi Hj Hk.
  now rewrite operand_index_image, operand_index_channel.
Qed.

(** [tf.nn.moments(x, axes=[1, 2], keepdims=True)] on an image batch: the
    spatial mean and the spatial variance of each image and channel. *)
Lemma moments_spatial : forall x n h w c,
  shape x = [n; h; w; c] ->
  let (mean, variance) := moments x [1; 2] true in
  shape mean = [n; 1%nat; 1%nat; c]
  /\ shape variance = [n; 1%nat; 1%nat; c]
  /\ forall b k, (b < n)%nat -> (k < c)%nat ->
       value mean [b; O; O; k] = spatial_mean x h w b k
       /\ value variance [b; O; O; k] = spatial_variance x h w b k.
Proof.
  intros x n h w c Hx. unfold moments. rewrite Hx.
  cbn [List.length axes_of map].
  change (Z.to_nat (if 1 <? 0 then 1 + Z.of_nat 4 else 1)) with 1%nat.
  change (Z.to_nat (if 2 <? 0 then 2 + Z.of_nat 4 else 2)) with 2%nat.
  destruct (reduce_mean_spatial x n h w c Hx) as [Hms Hmv].
  set (mean := reduce_mean [1%nat; 2%nat] x) in *.
  destruct (pointwise_moment (fun a m => ((a - m) * (a - m))%R) x mean
              n h w c Hx Hms) as [Hds Hdv].
  set (dev := pointwise (fun a m => ((a - m) * (a - m))%R) x mean) in *.
  destruct (reduce_mean_spatial dev n h w c Hds) as [Hvs Hvv].
  split; [exact Hms |]. split; [exact Hvs |].
  intros b k Hb Hk. split.
  - rewrite Hmv. reflexivity.
  - rewrite Hvv. unfold spatial_variance. f_equal.
    apply sum_below_ext. intros i Hi.
    apply sum_below_ext. intros j Hj.
    rewrite Hdv by assumption. rewrite Hmv. reflexivity.
Qed.

Variable variables : ref -> string -> list nat -> R.

(** C4.  On a batch [x] of [n] images of [h] rows, [w] columns and [c]
    channels, instance normalization keeps the shape, its two variables
    [scale] and [offset] hold one value per channel, and the output at
    image [b], row [i], column [j], channel [k] is
    [scale k * (x b i j k - mean) / sqrt (variance + epsilon) + offset k],
    where [mean] and [variance] are taken over the rows and the columns
    (axes 1 and 2) of channel [k] of image [b] alone, not over the batch
    and not over the channels. *)
Theorem InstanceNormalization_call_formula :
  forall (this : ref) (layer : InstanceNormalization.t) (x : tensor)
         (n h w c b i j k : nat),
    shape x = [n; h; w; c] ->
    (b < n)%nat -> (i < h)%nat -> (j < w)%nat -> (k < c)%nat ->
    let y := InstanceNormalization.apply (A := arith variables) this layer x in
    let weights :=
      InstanceNormalization.build (A := arith variables) this
        (tensor_shape (TensorArith := arith variables) x) in
    shape y = [n; h; w; c]
    /\ shape (InstanceNormalization.scale weights) = [c]
    /\ shape (InstanceNormalization.offset weights) = [c]
    /\ value y [b; i; j; k]
       = (variables this "scale" [k]
          * (value x [b; i; j; k] - spatial_mean x h w b k)
          / sqrt (spatial_variance x h w b k
                  + Q2R (InstanceNormalization.epsilon layer))
          + variables this "offset" [k])%R.
Proof.
  intros this layer x n h w c b i j k Hx Hb Hi Hj Hk y weights.
  subst y weights.
  unfold InstanceNormalization.apply, InstanceNormalization.call,
    InstanceNormalization.build.
  cbn [tf_nn_moments tensor_shape add_weight tf_math_rsqrt tensor_add
       tensor_sub tensor_mul tensor_add_scalar arith
       InstanceNormalization.scale InstanceNormalization.offset].
  rewrite Hx.
  change (last_slice (map Z.of_nat [n; h; w; c])) with [Z.of_nat c].
  cbn [map]. rewrite Nat2Z.id.
  pose proof (moments_spatial x n h w c Hx) as Hmoments.
  destruct (moments x [1; 2] true) as [mean variance].
  destruct Hmoments as (Hms & Hvs & Hval).
  destruct (Hval b k Hb Hk) as [Hmean Hvariance].
  set (inv := map_values (fun v => (/ sqrt v)%R)
                (map_values
                   (fun v => (v + Q2R (InstanceNormalization.epsilon layer))%R)
                   variance)).
  assert (Hinv : shape inv = [n; 1%nat; 1%nat; c]) by exact Hvs.
  destruct (pointwise_moment Rminus x mean n h w c Hx Hms) as [Hcs Hcv].
  set (centered := pointwise Rminus x mean) in *.
  destruct (pointwise_moment Rmult centered inv n h w c Hcs Hinv)
    as [Hns Hnv].
  set (normalized := pointwise Rmult centered inv) in *.
  set (scale := {| shape := [c]; value := variables this "scale" |}).
  set (offset := {| shape := [c]; value := variables this "offset" |}).
  destruct (pointwise_channel_l Rmult scale normalized n h w c eq_refl Hns)
    as [Hss Hsv].
  set (scaled := pointwise Rmult scale normalized) in *.
  destruct (pointwise_channel_r Rplus scaled offset n h w c Hss eq_refl)
    as [Hys Hyv].
  split; [exact Hys |]. split; [reflexivity |]. split; [reflexivity |].
  rewrite Hyv, Hsv, Hnv, Hcv by assumption.
  subst inv scale offset. cbn [map_values value].
  rewrite Hmean, Hvariance.
  unfold Rdiv. ring.
Qed.

End InstanceNormalizationReal.

Lemma InstanceNormalization_call_formula_witness :
  let variables := fun (_ : ref) (_ : string) (_ : list nat) => 1%R in
  let x := {| RealBackend.shape := [1; 1; 2; 1]%nat;
              RealBackend.value := fun idx => INR (nth 2 idx O) |} in
  let layer :=
    InstanceNormalization.init InstanceNormalization.epsilon_default in
  let y := InstanceNormalization.apply (A := RealBackend.arith variables)
             "norm" layer x in
  RealBackend.shape y = [1; 1; 2; 1]%nat
  /\ RealBackend.value y [0; 0; 1; 0]%nat
     = (1 * (1 - RealBackend.spatial_mean x 1 2 0 0)
        / sqrt (RealBackend.spatial_variance x 1 2 0 0 + Q2R (1 # 100000))
        + 1)%R.
Proof.
  intros variables x layer y.
  destruct (InstanceNormalization_call_formula variables "norm" layer x
              1 1 2 1 0 0 1 0 eq_refl
              (le_n 1) (le_n 1) (le_n 2) (le_n 1))
    as (Hshape & _ & _ & Hvalue).
  split; [exact Hshape |].
  exact Hvalue.
Defined.


(* ================================================================= *)
(** * Further properties of the module *)

(** ** Which arguments the constructors accept *)













(** X4.  In a constructed discriminator the first stage never normalizes
    and so keeps its bias, whatever [norm_type] is; the three other stages
    hold the layer [norm_type] asks for; the stages have [first_filters]
    times 1, 2, 4 and 8 filters, strides 2, 2, 2 and 1, paddings "same"
    three times then "valid", and a leaky ReLU of slope 0.2 each; the final
    convolution has one filter, stride 1, no padding, a bias and no
    activation. *)
Theorem Discriminator_init_layers :
  forall self first_filters size norm_type name d,
    Discriminator.init self first_filters size norm_type name = Ok d ->
    let stages :=
      [ Discriminator.downsample_1 d; Discriminator.downsample_2 d;
        Discriminator.downsample_3 d; Discriminator.downsample_4 d ] in
    Downsample.norm_layer (Discriminator.downsample_1 d) = None
    /\ use_bias (Downsample.conv2d (Discriminator.downsample_1 d)) = true
    /\ Forall (fun s =>
                 stored_norm_layer norm_type (Downsample.norm_layer s)
                 /\ use_bias (Downsample.conv2d s) = negb (truthy norm_type))
         (tl stages)
    /\ map (fun s => filters (Downsample.conv2d s)) stages
       = [ first_filters; first_filters * 2; first_filters * 4;
           first_filters * 8 ]
    /\ map (fun s => strides (Downsample.conv2d s)) stages = [2; 2; 2; 1]
    /\ map (fun s => padding (Downsample.conv2d s)) stages
       = [same; same; same; valid]
    /\ map (fun s => kernel_size (Downsample.conv2d s)) stages
       = [size; size; size; size]
    /\ map Downsample.activation stages
       = [ LeakyReLU (2 # 10); LeakyReLU (2 # 10); LeakyReLU (2 # 10);
           LeakyReLU (2 # 10) ]
    /\ Discriminator.conv2d d
       = {| filters := 1; kernel_size := size; strides := 1;
            padding := valid;
            kernel_initializer := random_normal_initializer 0 (2 # 100);
            use_bias := true; conv_activation := None |}.
Proof.
  intros self first_filters size norm_type name d Hd stages. subst stages.
  apply Discriminator_init_inv in Hd
    as (d1 & d2 & d3 & d4 & H1 & H2 & H3 & H4 & ->).
  apply Downsample_init_inv in H1 as (l1 & a1 & L1 & A1 & ->).
  apply Downsample_init_inv in H2 as (l2 & a2 & L2 & A2 & ->).
  apply Downsample_init_inv in H3 as (l3 & a3 & L3 & A3 & ->).
  apply Downsample_init_inv in H4 as (l4 & a4 & L4 & A4 & ->).
  cbn in L1. subst l1.
  injection A1 as <-. injection A2 as <-. injection A3 as <-.
  injection A4 as <-.
  cbn [Discriminator.downsample_1 Discriminator.downsample_2
       Discriminator.downsample_3 Discriminator.downsample_4
       Discriminator.conv2d Downsample.norm_layer Downsample.conv2d
       Downsample.activation use_bias filters strides padding kernel_size
       map tl].
  repeat split.
  repeat constructor; assumption.
Qed.

Lemma Discriminator_init_layers_witness :
  exists d,
    Discriminator.init "D" 64 4 (Some "batchnorm") "discriminator" = Ok d
    /\ Downsample.norm_layer (Discriminator.downsample_1 d) = None
    /\ map (fun s => filters (Downsample.conv2d s))
         [ Discriminator.downsample_1 d; Discriminator.downsample_2 d;
           Discriminator.downsample_3 d; Discriminator.downsample_4 d ]
       = [64; 128; 256; 512].
Proof.
  eexists. split; [reflexivity |].
  destruct (Discriminator_init_layers "D" 64 4 (Some "batchnorm")
              "discriminator" _ eq_refl)
    as (Hfirst & _ & _ & Hfilters & _).
  split; [exact Hfirst | exact Hfilters].
Defined.

(** X5.  [ResNetGenerator.__init__] does not read its [norm_type]: two
    calls that differ in it alone have the same outcome, so that an unknown
    norm type is accepted and "batchnorm" has no effect.  With a name
    without a slash, at least one first filter and at least one output
    channel it returns a generator in which every sampling stage holds an
    [InstanceNormalization] layer and no bias; the downsampling stages end
    in a leaky ReLU of slope 0.2, the upsampling stages in a ReLU, without
    dropout. *)
Theorem ResNetGenerator_init_ignores_norm_type :
  forall self first_filters output_channels norm_type norm_type' name,
    ResNetGenerator.init self first_filters output_channels norm_type name
    = ResNetGenerator.init self first_filters output_channels norm_type' name
    /\ (has_slash name = false ->
        1 <= first_filters -> 1 <= output_channels ->
        exists g,
          ResNetGenerator.init self first_filters output_channels norm_type
            name = Ok g
          /\ Forall (fun d =>
                       Downsample.norm_layer d
                       = Some (InstanceNorm
                                 (InstanceNormalization.init
                                    InstanceNormalization.epsilon_default))
                       /\ use_bias (Downsample.conv2d d) = false
                       /\ Downsample.activation d = LeakyReLU (2 # 10))
               [ ResNetGenerator.downsample_1 g;
                 ResNetGenerator.downsample_2 g;
                 ResNetGenerator.downsample_3 g ]
          /\ Forall (fun u =>
                       Upsample.norm_layer u
                       = Some (InstanceNorm
                                 (InstanceNormalization.init
                                    InstanceNormalization.epsilon_default))
                       /\ use_bias (Upsample.conv2dtranspose u) = false
                       /\ Upsample.dropout u = None
                       /\ Upsample.activation u = ReLU)
               [ ResNetGenerator.upsample_1 g;
                 ResNetGenerator.upsample_2 g ]).
Proof.
  intros self first_filters output_channels norm_type norm_type' name.
  split; [reflexivity |].
  intros Hname Hff Hoc.
  exists (ResNetGenerator_built self first_filters output_channels name).
  split; [now apply ResNetGenerator_init_ok |].
  split; repeat constructor.
Qed.

Lemma ResNetGenerator_init_ignores_norm_type_witness :
  ResNetGenerator.init "G" 64 3 (Some "groupnorm") "generator"
  = ResNetGenerator.init "G" 64 3 (Some "instancenorm") "generator"
  /\ exists g,
       ResNetGenerator.init "G" 64 3 (Some "groupnorm") "generator" = Ok g
       /\ Downsample.norm_layer (ResNetGenerator.downsample_1 g)
          = Some (InstanceNorm
                    (InstanceNormalization.init
                       InstanceNormalization.epsilon_default)).
Proof.
  destruct (ResNetGenerator_init_ignores_norm_type "G" 64 3
              (Some "groupnorm") (Some "instancenorm") "generator")
    as (Hsame & Hmade).
  split; [exact Hsame |].
  destruct (Hmade eq_refl ltac:(lia) ltac:(lia)) as (g & Hg & Hdown & _).
  exists g. split; [exact Hg |].
  inversion Hdown as [| d ds (Hnorm & _) _]. exact Hnorm.
Defined.

(** ** Case of the names *)

Lemma ascii_lower_idempotent : forall c,
  ascii_lower (ascii_lower c) = ascii_lower c.
Proof. intros [[] [] [] [] [] [] [] []]; reflexivity. Qed.

Lemma lower_idempotent : forall s, lower (lower s) = lower s.
Proof.
  intros s. induction s as [| c s IH]; [reflexivity |].
  cbn [lower]. now rewrite ascii_lower_idempotent, IH.
Qed.

(** X16.  The two factory functions look at the lowered name only: a name
    and its lower-case form get the same normalization layer, when either
    gets one, and the same result from [get_activation]. *)
Theorem factories_ignore_case :
  (forall s layer,
      get_norm_layer (Some s) = Ok layer
      <-> get_norm_layer (Some (lower s)) = Ok layer)
  /\ (forall s, get_activation (lower s) = get_activation s).
Proof.
  split.
  - intros s layer. unfold get_norm_layer. rewrite lower_idempotent.
    destruct (String.eqb (lower s) "batchnorm"); [reflexivity |].
    destruct (String.eqb (lower s) "instancenorm"); [reflexivity |].
    split; discriminate.
  - intros s. unfold get_activation. rewrite lower_idempotent.
    destruct (String.eqb (lower s) "relu"); [reflexivity |].
    destruct (String.eqb (lower s) "lrelu"); [reflexivity |].
    destruct (String.eqb (lower s) "tanh"); reflexivity.
Qed.

(** ** Shapes through the layers and the models *)

Ltac settle_tests :=
  repeat match goal with
         | |- context [?a <? ?b] => destruct (Z.ltb_spec a b); try lia
         | |- context [?a <=? ?b] => destruct (Z.leb_spec a b); try lia
         end.

Ltac settle_div := unfold ceil_div in *; Z.div_mod_to_equations; lia.

Section FurtherShapes.

Import ShapeBackend.

Lemma ceil_div_2_2 : forall h, ceil_div (ceil_div h 2) 2 = ceil_div h 4.
Proof. intros h. settle_div. Qed.

Lemma ceil_div_2_2_2 : forall h,
  ceil_div (ceil_div (ceil_div h 2) 2) 2 = ceil_div h 8.
Proof. intros h. settle_div. Qed.

Lemma conv_shape_same : forall c n h w ci,
  padding c = same ->
  1 <= kernel_size c -> 1 <= strides c -> 1 <= filters c -> 1 <= ci ->
  conv_shape c [n; h; w; ci]
  = Some [n; ceil_div h (strides c); ceil_div w (strides c); filters c].
Proof.
  intros c n h w ci Hp Hk Hs Hf Hci. unfold conv_shape, conv_length, ceil_div.
  rewrite Hp. settle_tests. reflexivity.
Qed.

Lemma conv_shape_valid : forall c n h w ci,
  padding c = valid ->
  1 <= kernel_size c -> 1 <= strides c -> 1 <= filters c -> 1 <= ci ->
  kernel_size c <= h -> kernel_size c <= w ->
  conv_shape c [n; h; w; ci]
  = Some [n; (h - kernel_size c) / strides c + 1;
          (w - kernel_size c) / strides c + 1; filters c].
Proof.
  intros c n h w ci Hp Hk Hs Hf Hci Hh Hw. unfold conv_shape, conv_length.
  rewrite Hp. settle_tests. reflexivity.
Qed.

Lemma deconv_shape_same : forall c n h w ci,
  padding c = same ->
  1 <= kernel_size c -> 1 <= strides c -> 1 <= filters c -> 1 <= ci ->
  deconv_shape c [n; h; w; ci]
  = Some [n; h * strides c; w * strides c; filters c].
Proof.
  intros c n h w ci Hp Hk Hs Hf Hci. unfold deconv_shape, deconv_length.
  rewrite Hp. settle_tests. reflexivity.
Qed.

Lemma NormLayer_shape_none : forall this l,
  NormLayer_apply (B := backend) this l None = None.
Proof. intros this [| layer]; reflexivity. Qed.

(** On shapes a sampling layer is its convolution: normalization,
    dropout and activation keep the shape, and a shape error stays one. *)
Lemma Downsample_call_shape_any : forall d x,
  norm_layer_held (Downsample.norm_type d) (Downsample.norm_layer d) ->
  Downsample.call (B := backend) d x
  = Ok (on_shape (conv_shape (Downsample.conv2d d)) x).
Proof.
  intros d [s |] Hheld.
  - cbn [on_shape].
    destruct (conv_shape (Downsample.conv2d d) s) as [s' |] eqn:Hconv.
    + now apply Downsample_call_shape.
    + unfold Downsample.call. cbn [keras_Conv2D backend on_shape].
      rewrite Hconv.
      destruct (truthy (Downsample.norm_type d)) eqn:Ht.
      * destruct (Hheld Ht) as (layer & ->).
        rewrite NormLayer_shape_none. cbn [Py.bind].
        now rewrite Activation_shape.
      * cbn [Py.bind]. now rewrite Activation_shape.
  - unfold Downsample.call. cbn [keras_Conv2D backend on_shape].
    destruct (truthy (Downsample.norm_type d)) eqn:Ht.
    + destruct (Hheld Ht) as (layer & ->).
      rewrite NormLayer_shape_none. cbn [Py.bind].
      now rewrite Activation_shape.
    + cbn [Py.bind]. now rewrite Activation_shape.
Qed.

Lemma small_conv_same : forall c bound bound' x,
  padding c = same -> strides c = 2 ->
  ceil_div bound 2 <= bound' ->
  small bound x ->
  small bound' (on_shape (conv_shape c) x).
Proof.
  intros c bound bound' x Hp Hs Hb.
  destruct x as [[| n [| h [| w [| ci [| ? ?]]]]] |]; try exact (fun _ => I).
  cbn [on_shape small]. intros Hsmall. unfold conv_shape.
  destruct ((1 <=? kernel_size c) && (1 <=? strides c) && (1 <=? filters c)
            && (1 <=? ci));
    [| exact I].
  rewrite Hp, Hs. cbn [conv_length small].
  change ((h + 2 - 1) / 2) with (ceil_div h 2).
  change ((w + 2 - 1) / 2) with (ceil_div w 2).
  destruct Hsmall; [left | right]; settle_div.
Qed.

Lemma small_zero_pad : forall z bound bound' x,
  bound + 2 * zero_padding z <= bound' ->
  small bound x ->
  small bound' (on_shape (zero_pad_shape z) x).
Proof.
  intros z bound bound' x Hb.
  destruct x as [[| n [| h [| w [| ci [| ? ?]]]]] |]; try exact (fun _ => I).
  cbn [on_shape small zero_pad_shape]. intros Hsmall.
  destruct (0 <=? zero_padding z); [| exact I].
  cbn [small]. lia.
Qed.

Lemma small_conv_valid : forall c bound bound' x,
  padding c = valid -> strides c = 1 ->
  bound - kernel_size c + 1 <= bound' ->
  small bound x ->
  small bound' (on_shape (conv_shape c) x).
Proof.
  intros c bound bound' x Hp Hs Hb.
  destruct x as [[| n [| h [| w [| ci [| ? ?]]]]] |]; try exact (fun _ => I).
  cbn [on_shape small]. intros Hsmall. unfold conv_shape.
  destruct ((1 <=? kernel_size c) && (1 <=? strides c) && (1 <=? filters c)
            && (1 <=? ci));
    [| exact I].
  rewrite Hp, Hs. cbn [conv_length].
  destruct (kernel_size c <=? h); [| exact I].
  destruct (kernel_size c <=? w); [| exact I].
  cbn [small]. rewrite !Z.div_1_r. lia.
Qed.

Lemma small_conv_valid_none : forall c bound x,
  padding c = valid -> bound < kernel_size c ->
  small bound x ->
  on_shape (conv_shape c) x = None.
Proof.
  intros c bound x Hp Hb.
  destruct x as [[| n [| h [| w [| ci [| ? ?]]]]] |]; try reflexivity.
  cbn [on_shape small]. intros Hsmall. unfold conv_shape.
  destruct ((1 <=? kernel_size c) && (1 <=? strides c) && (1 <=? filters c)
            && (1 <=? ci));
    [| reflexivity].
  rewrite Hp. cbn [conv_length].
  destruct (Z.leb_spec (kernel_size c) h);
    destruct (Z.leb_spec (kernel_size c) w); try reflexivity.
  lia.
Qed.

(** The forward pass of a constructed discriminator on shapes: its four
    convolutions, the two zero paddings and the final convolution. *)
Lemma Discriminator_call_shape_any :
  forall self first_filters size norm_type name d x,
    Discriminator.init self first_filters size norm_type name = Ok d ->
    Discriminator.call (B := backend) d x
    = Ok (on_shape (conv_shape (Discriminator.conv2d d))
           (on_shape (zero_pad_shape ZeroPadding2D_default)
             (on_shape (conv_shape
                          (Downsample.conv2d (Discriminator.downsample_4 d)))
               (on_shape (zero_pad_shape ZeroPadding2D_default)
                 (on_shape (conv_shape
                              (Downsample.conv2d
                                 (Discriminator.downsample_3 d)))
                   (on_shape (conv_shape
                                (Downsample.conv2d
                                   (Discriminator.downsample_2 d)))
                     (on_shape (conv_shape
                                  (Downsample.conv2d
                                     (Discriminator.downsample_1 d)))
                        x))))))).
Proof.
  intros self first_filters size norm_type name d x Hd.
  apply Discriminator_init_inv in Hd
    as (d1 & d2 & d3 & d4 & H1 & H2 & H3 & H4 & ->).
  pose proof (Downsample_init_held _ _ _ _ _ _ _ _ _ H1) as K1.
  pose proof (Downsample_init_held _ _ _ _ _ _ _ _ _ H2) as K2.
  pose proof (Downsample_init_held _ _ _ _ _ _ _ _ _ H3) as K3.
  pose proof (Downsample_init_held _ _ _ _ _ _ _ _ _ H4) as K4.
  unfold Discriminator.call.
  cbn [Discriminator.downsample_1 Discriminator.downsample_2
       Discriminator.downsample_3 Discriminator.downsample_4
       Discriminator.conv2d Discriminator.zeropadding2d_1
       Discriminator.zeropadding2d_2 Discriminator.this].
  rewrite (Downsample_call_shape_any d1 _ K1). cbn [Py.bind].
  rewrite (Downsample_call_shape_any d2 _ K2). cbn [Py.bind].
  rewrite (Downsample_call_shape_any d3 _ K3). cbn [Py.bind].
  rewrite (Downsample_call_shape_any d4 _ K4). cbn [Py.bind].
  reflexivity.
Qed.

(** X6.  With the default kernel size 4, at least one filter, and an
    accepted norm type, the discriminator maps a batch of images of height
    [h] and width [w], both at least 17, with at least one channel, to one
    score map per image of height [ceil(h / 8) - 2] and width
    [ceil(w / 8) - 2], with a single channel. *)
Theorem Discriminator_call_shape :
  forall self first_filters norm_type name d bs h w c,
    Discriminator.init self first_filters Discriminator.size_default norm_type
      name = Ok d ->
    1 <= first_filters -> 17 <= h -> 17 <= w -> 0 < c ->
    Discriminator.call (B := backend) d (Some [bs; h; w; c])
    = Ok (Some [bs; ceil_div h 8 - 2; ceil_div w 8 - 2; 1]).
Proof.
  intros self first_filters norm_type name d bs h w c Hd Hf Hh Hw Hc.
  rewrite (Discriminator_call_shape_any _ _ _ _ _ _ _ Hd).
  apply Discriminator_init_inv in Hd
    as (d1 & d2 & d3 & d4 & H1 & H2 & H3 & H4 & ->).
  apply Downsample_init_inv in H1 as (l1 & a1 & _ & _ & ->).
  apply Downsample_init_inv in H2 as (l2 & a2 & _ & _ & ->).
  apply Downsample_init_inv in H3 as (l3 & a3 & _ & _ & ->).
  apply Downsample_init_inv in H4 as (l4 & a4 & _ & _ & ->).
  cbn [Discriminator.downsample_1 Discriminator.downsample_2
       Discriminator.downsample_3 Discriminator.downsample_4
       Discriminator.conv2d Downsample.conv2d on_shape].
  unfold Discriminator.size_default.
  rewrite conv_shape_same by (first [reflexivity | cbn [kernel_size strides filters padding]; lia]).
  cbn [on_shape strides filters].
  rewrite conv_shape_same by (first [reflexivity | cbn [kernel_size strides filters padding]; lia]).
  cbn [on_shape strides filters].
  rewrite conv_shape_same by (first [reflexivity | cbn [kernel_size strides filters padding]; lia]).
  cbn [on_shape strides filters]. rewrite !ceil_div_2_2_2.
  assert (3 <= ceil_div h 8) by settle_div.
  assert (3 <= ceil_div w 8) by settle_div.
  cbn [zero_pad_shape ZeroPadding2D_default zero_padding].
  change (0 <=? 1) with true. cbn [on_shape].
  rewrite conv_shape_valid by (first [reflexivity | cbn [kernel_size strides filters padding]; lia]).
  cbn [on_shape strides filters kernel_size zero_pad_shape
       ZeroPadding2D_default zero_padding].
  change (0 <=? 1) with true. cbn [on_shape].
  rewrite conv_shape_valid
    by (cbn [padding kernel_size strides filters]; rewrite ?Z.div_1_r;
        lia || reflexivity).
  cbn [strides filters kernel_size]. rewrite !Z.div_1_r.
  repeat (f_equal; try lia).
Qed.

Lemma Discriminator_call_shape_witness :
  exists d,
    Discriminator.init "D" 32 4 None "discriminator" = Ok d
    /\ Discriminator.call (B := backend) d (Some [2; 100; 64; 1])
       = Ok (Some [2; 11; 6; 1]).
Proof.
  eexists. split; [reflexivity |].
  exact (Discriminator_call_shape "D" 32 None "discriminator" _ 2 100 64 1
           eq_refl
           (fun H => match H with eq_refl => I end)
           (fun H => match H with eq_refl => I end)
           (fun H => match H with eq_refl => I end)
           eq_refl).
Defined.

(** X7.  With the default kernel size 4 the discriminator has no output
    for an image whose height or width is 16 or less: the two unpadded
    convolutions at its end find less than the four rows or columns they
    need, and the forward pass ends in a shape error. *)
Theorem Discriminator_call_too_small :
  forall self first_filters norm_type name d bs h w c,
    Discriminator.init self first_filters Discriminator.size_default norm_type
      name = Ok d ->
    h <= 16 \/ w <= 16 ->
    Discriminator.call (B := backend) d (Some [bs; h; w; c]) = Ok None.
Proof.
  intros self first_filters norm_type name d bs h w c Hd Hsmall.
  unfold Discriminator.size_default in Hd.
  rewrite (Discriminator_call_shape_any _ _ _ _ _ _ _ Hd).
  apply Discriminator_init_inv in Hd
    as (d1 & d2 & d3 & d4 & H1 & H2 & H3 & H4 & ->).
  apply Downsample_init_inv in H1 as (l1 & a1 & _ & _ & ->).
  apply Downsample_init_inv in H2 as (l2 & a2 & _ & _ & ->).
  apply Downsample_init_inv in H3 as (l3 & a3 & _ & _ & ->).
  apply Downsample_init_inv in H4 as (l4 & a4 & _ & _ & ->).
  cbn [Discriminator.downsample_1 Discriminator.downsample_2
       Discriminator.downsample_3 Discriminator.downsample_4
       Discriminator.conv2d Downsample.conv2d].
  f_equal.
  apply (small_conv_valid_none _ 3); [reflexivity | cbn; lia |].
  apply (small_zero_pad ZeroPadding2D_default 1 3); [cbn; lia |].
  apply (small_conv_valid _ 4 1); [reflexivity | reflexivity | cbn; lia |].
  apply (small_zero_pad ZeroPadding2D_default 2 4); [cbn; lia |].
  apply (small_conv_same _ 4 2); [reflexivity | reflexivity | settle_div |].
  apply (small_conv_same _ 8 4); [reflexivity | reflexivity | settle_div |].
  apply (small_conv_same _ 16 8); [reflexivity | reflexivity | settle_div |].
  exact Hsmall.
Qed.

Lemma Discriminator_call_too_small_witness :
  exists d,
    Discriminator.init "D" 64 4 (Some "instancenorm") "discriminator" = Ok d
    /\ Discriminator.call (B := backend) d (Some [1; 16; 256; 3]) = Ok None.
Proof.
  eexists. split; [reflexivity |].
  exact (Discriminator_call_too_small "D" 64 (Some "instancenorm")
           "discriminator" _ 1 16 256 3 eq_refl
           ltac:(left; lia)).
Defined.

End FurtherShapes.

Section ResidualShapes.

Import ShapeBackend.

(** The residual branch on shapes, for a block with stride 1 and no
    padding of its own: each reflection padding adds [2 * p] rows and
    columns and the convolution after it removes [size - 1] of them. *)
Lemma ResNetBlock_branch_shape :
  forall self f size p n h w c,
    p = Z.quot (size - 1) 2 ->
    0 < n -> 0 < c -> 1 <= f -> 1 <= size -> 0 <= p ->
    p < h -> p < w -> size <= h + 2 * p -> size <= w + 2 * p ->
    p < h + 2 * p - size + 1 -> p < w + 2 * p - size + 1 ->
    size <= h + 4 * p - size + 1 -> size <= w + 4 * p - size + 1 ->
    ResNetBlock_branch (B := backend)
      (ResNetBlock_built self f size 1 valid) (Some [n; h; w; c])
    = Some [n; h + 2 * (2 * p - size + 1); w + 2 * (2 * p - size + 1); f].
Proof.
  intros self f size p n h w c Hp Hn Hc Hf Hsize Hp0
         Hh1 Hw1 Hh2 Hw2 Hh3 Hw3 Hh4 Hw4.
  unfold ResNetBlock_branch, ResNetBlock_built.
  cbn [ResNetBlock.size ResNetBlock.this
       ResNetBlock.conv2d_1 ResNetBlock.conv2d_2
       ResNetBlock.instance_norm_1 ResNetBlock.instance_norm_2].
  rewrite <- Hp.
  rewrite reflect_pad_shape by lia.
  cbn [keras_Conv2D keras_ReLU backend on_shape].
  rewrite conv_shape_valid by (first [reflexivity | cbn [kernel_size strides filters padding]; lia]).
  cbn [kernel_size strides filters]. rewrite !Z.div_1_r.
  rewrite InstanceNormalization_shape.
  rewrite reflect_pad_shape by lia.
  cbn [on_shape].
  rewrite conv_shape_valid by (first [reflexivity | cbn [kernel_size strides filters padding]; lia]).
  cbn [kernel_size strides filters]. rewrite !Z.div_1_r.
  rewrite InstanceNormalization_shape.
  repeat (f_equal; try lia).
Qed.

Lemma ResNetBlock_call_add :
  forall self f size (x : tensor),
    ResNetBlock.call (B := backend) (ResNetBlock_built self f size 1 valid) x
    = broadcast
        (ResNetBlock_branch (B := backend)
           (ResNetBlock_built self f size 1 valid) x) x.
Proof. reflexivity. Qed.

Lemma odd_size_padding : forall m, 0 <= m -> Z.quot (2 * m + 1 - 1) 2 = m.
Proof.
  intros m Hm. replace (2 * m + 1 - 1) with (m * 2) by lia.
  apply Z.quot_mul. lia.
Qed.

Lemma even_size_padding : forall m, 1 <= m -> Z.quot (2 * m - 1) 2 = m - 1.
Proof.
  intros m Hm. rewrite Z.quot_div_nonneg by lia.
  Z.div_mod_to_equations. lia.
Qed.

(** X8.  A residual block with an odd kernel size [2 m + 1], stride 1, no
    padding of its own and as many filters as its input has channels is
    constructed, and returns a tensor of the shape of its input, provided
    the input has more than [m] rows and columns (reflection cannot pad
    more than that). *)
Theorem ResNetBlock_call_shape_odd :
  forall self name m n h w c,
    0 <= m -> 0 < n -> 0 < c -> m < h -> m < w ->
    exists r,
      ResNetBlock.init self c (2 * m + 1) 1 valid name = Ok r
      /\ ResNetBlock.call (B := backend) r (Some [n; h; w; c])
         = Some [n; h; w; c].
Proof.
  intros self name m n h w c Hm Hn Hc Hh Hw.
  exists (ResNetBlock_built self c (2 * m + 1) 1 valid).
  split; [apply ResNetBlock_init_ok; lia |].
  rewrite ResNetBlock_call_add.
  rewrite (ResNetBlock_branch_shape self c (2 * m + 1) m n h w c)
    by (first [symmetry; apply odd_size_padding; lia | lia]).
  replace (h + 2 * (2 * m - (2 * m + 1) + 1)) with h by lia.
  replace (w + 2 * (2 * m - (2 * m + 1) + 1)) with w by lia.
  apply broadcast_same.
Qed.

Lemma ResNetBlock_call_shape_odd_witness :
  exists r,
    ResNetBlock.init "block" 8 5 1 valid "resnetblock" = Ok r
    /\ ResNetBlock.call (B := backend) r (Some [1; 3; 4; 8])
       = Some [1; 3; 4; 8].
Proof.
  exact (ResNetBlock_call_shape_odd "block" "resnetblock" 2 1 3 4 8
           ltac:(lia) ltac:(lia) ltac:(lia) ltac:(lia) ltac:(lia)).
Defined.

(** X9.  The skip connection needs the block to have as many filters as
    its input has channels: a block with an odd kernel size, stride 1, no
    padding of its own and [f] filters is constructed, and on an input of
    [c] channels, [f] and [c] different and neither equal to 1, the sum of
    the branch and the input has no shape, and the block has no output. *)
Theorem ResNetBlock_call_channel_mismatch :
  forall self name m f n h w c,
    0 <= m -> 0 < n -> 0 < c -> 1 <= f -> m < h -> m < w ->
    f <> c -> f <> 1 -> c <> 1 ->
    exists r,
      ResNetBlock.init self f (2 * m + 1) 1 valid name = Ok r
      /\ ResNetBlock.call (B := backend) r (Some [n; h; w; c]) = None.
Proof.
  intros self name m f n h w c Hm Hn Hc Hf Hh Hw Hfc Hf1 Hc1.
  exists (ResNetBlock_built self f (2 * m + 1) 1 valid).
  split; [apply ResNetBlock_init_ok; lia |].
  rewrite ResNetBlock_call_add.
  rewrite (ResNetBlock_branch_shape self f (2 * m + 1) m n h w c)
    by (first [symmetry; apply odd_size_padding; lia | lia]).
  unfold broadcast. cbn [rev app broadcast_rev].
  unfold broadcast_dim at 1.
  destruct (Z.eqb_spec f c); [contradiction |].
  destruct (Z.eqb_spec f 1); [contradiction |].
  destruct (Z.eqb_spec c 1); [contradiction |].
  reflexivity.
Qed.

Lemma ResNetBlock_call_channel_mismatch_witness :
  exists r,
    ResNetBlock.init "block" 128 3 1 valid "resnetblock" = Ok r
    /\ ResNetBlock.call (B := backend) r (Some [1; 64; 64; 256]) = None.
Proof.
  exact (ResNetBlock_call_channel_mismatch "block" "resnetblock" 1 128 1 64
           64 256 ltac:(lia) ltac:(lia) ltac:(lia) ltac:(lia) ltac:(lia)
           ltac:(lia) ltac:(lia) ltac:(lia) ltac:(lia)).
Defined.

(** X10.  With an even kernel size [2 m], stride 1, no padding of its own
    and as many filters as the input has channels, the block is
    constructed and the padding [int((size - 1) / 2)] is [m - 1], one
    short of what the convolution removes: the branch loses two rows and
    two columns, and on an input of at least four rows the skip connection
    cannot add it to the input; the block has no output. *)
Theorem ResNetBlock_call_even_size :
  forall self name m n h w c,
    1 <= m -> 0 < n -> 0 < c -> m < h -> m < w -> 4 <= h -> 3 <= w ->
    Py.int_truediv (2 * m - 1) 2 = m - 1
    /\ exists r,
         ResNetBlock.init self c (2 * m) 1 valid name = Ok r
         /\ ResNetBlock_branch (B := backend) r (Some [n; h; w; c])
            = Some [n; h - 2; w - 2; c]
         /\ ResNetBlock.call (B := backend) r (Some [n; h; w; c]) = None.
Proof.
  intros self name m n h w c Hm Hn Hc Hh Hw Hh4 Hw3.
  assert (Hbranch :
    ResNetBlock_branch (B := backend)
      (ResNetBlock_built self c (2 * m) 1 valid) (Some [n; h; w; c])
    = Some [n; h - 2; w - 2; c]).
  { rewrite (ResNetBlock_branch_shape self c (2 * m) (m - 1) n h w c)
      by (first [symmetry; apply even_size_padding; lia | lia]).
    repeat (f_equal; try lia). }
  split; [apply even_size_padding; exact Hm |].
  exists (ResNetBlock_built self c (2 * m) 1 valid).
  split; [apply ResNetBlock_init_ok; lia |].
  split; [exact Hbranch |].
  rewrite ResNetBlock_call_add, Hbranch.
  unfold broadcast. cbn [rev app broadcast_rev].
  assert (Hdim : broadcast_dim (h - 2) h = None).
  { unfold broadcast_dim.
    destruct (Z.eqb_spec (h - 2) h); [lia |].
    destruct (Z.eqb_spec (h - 2) 1); [lia |].
    destruct (Z.eqb_spec h 1); [lia | reflexivity]. }
  rewrite Hdim.
  destruct (broadcast_dim (w - 2) w); destruct (broadcast_dim c c);
    reflexivity.
Qed.

Lemma ResNetBlock_call_even_size_witness :
  exists r,
    ResNetBlock.init "block" 256 4 1 valid "resnetblock" = Ok r
    /\ ResNetBlock.call (B := backend) r (Some [1; 64; 64; 256]) = None.
Proof.
  destruct (ResNetBlock_call_even_size "block" "resnetblock" 2 1 64 64 256
              ltac:(lia) ltac:(lia) ltac:(lia) ltac:(lia) ltac:(lia)
              ltac:(lia) ltac:(lia))
    as (_ & r & Hr & _ & Hcall).
  exists r. split; [exact Hr | exact Hcall].
Defined.

End ResidualShapes.

Section GeneratorShapes.

Import ShapeBackend.

Lemma Upsample_call_shape_same : forall u n h w c,
  norm_layer_held (Upsample.norm_type u) (Upsample.norm_layer u) ->
  Upsample.apply_dropout u = false ->
  padding (Upsample.conv2dtranspose u) = same ->
  1 <= kernel_size (Upsample.conv2dtranspose u) ->
  1 <= strides (Upsample.conv2dtranspose u) ->
  1 <= filters (Upsample.conv2dtranspose u) ->
  1 <= c ->
  Upsample.call (B := backend) u (Some [n; h; w; c])
  = Ok (Some [n; h * strides (Upsample.conv2dtranspose u);
              w * strides (Upsample.conv2dtranspose u);
              filters (Upsample.conv2dtranspose u)]).
Proof.
  intros u n h w c Hheld Hdrop Hp Hk Hs Hf Hc.
  apply Upsample_call_shape; [exact Hheld | congruence |].
  now apply deconv_shape_same.
Qed.

(** X11.  With a name Keras accepts, at least one filter and one output
    channel, and whatever its norm type, the generator is constructed and
    maps a batch of at least one image of height [h] and width [w], both
    at least 5, with at least one channel, to a batch of images of height
    [4 * ceil(h / 4)] and width [4 * ceil(w / 4)] with [output_channels]
    channels: the two halvings round up and the two doublings do not undo
    the rounding.  The spatial size of the input is kept exactly when it
    is a multiple of 4. *)
Theorem ResNetGenerator_call_shape :
  forall self first_filters output_channels norm_type name bs h w c,
    has_slash name = false ->
    0 < bs -> 0 < c -> 1 <= first_filters -> 1 <= output_channels ->
    5 <= h -> 5 <= w ->
    exists g,
      ResNetGenerator.init self first_filters output_channels norm_type name
      = Ok g
      /\ ResNetGenerator.call (B := backend) g (Some [bs; h; w; c])
         = Ok (Some [bs; 4 * ceil_div h 4; 4 * ceil_div w 4;
                     output_channels])
      /\ (4 * ceil_div h 4 = h <-> h mod 4 = 0)
      /\ (4 * ceil_div w 4 = w <-> w mod 4 = 0).
Proof.
  intros self ff oc norm_type name bs h w c Hname Hbs Hc Hff Hoc Hh Hw.
  exists (ResNetGenerator_built self ff oc name).
  split; [now apply ResNetGenerator_init_ok |].
  split; [| split; settle_div].
  set (g := ResNetGenerator_built self ff oc name).
  assert (Hqh : 2 <= ceil_div h 4) by settle_div.
  assert (Hqw : 2 <= ceil_div w 4) by settle_div.
  assert (P1 : run_stage (B := backend) (ReflectPad 3) (Some [bs; h; w; c])
               = Ok (Some [bs; h + 2 * 3; w + 2 * 3; c])).
  { apply (f_equal Ok). apply reflect_pad_shape; lia. }
  assert (D1 : run_stage (B := backend)
                 (Down (ResNetGenerator.downsample_1 g))
                 (Some [bs; h + 2 * 3; w + 2 * 3; c])
               = Ok (Some [bs; h; w; ff])).
  { apply Downsample_call_shape; [intros _; eexists; reflexivity |].
    unfold g, ResNetGenerator_built, Downsample_built,
      Upsample_built.
    cbn [ResNetGenerator.downsample_1 Downsample.conv2d].
    rewrite conv_shape_valid
      by (first [reflexivity
                | cbn [kernel_size strides filters padding]; lia]).
    cbn [kernel_size strides filters]. rewrite !Z.div_1_r.
    repeat (f_equal; try lia). }
  assert (D2 : run_stage (B := backend)
                 (Down (ResNetGenerator.downsample_2 g)) (Some [bs; h; w; ff])
               = Ok (Some [bs; ceil_div h 2; ceil_div w 2; ff * 2])).
  { apply Downsample_call_shape; [intros _; eexists; reflexivity |].
    unfold g, ResNetGenerator_built, Downsample_built,
      Upsample_built.
    cbn [ResNetGenerator.downsample_2 Downsample.conv2d].
    rewrite conv_shape_same
      by (first [reflexivity
                | cbn [kernel_size strides filters padding]; lia]).
    reflexivity. }
  assert (D3 : run_stage (B := backend)
                 (Down (ResNetGenerator.downsample_3 g))
                 (Some [bs; ceil_div h 2; ceil_div w 2; ff * 2])
               = Ok (Some [bs; ceil_div h 4; ceil_div w 4; ff * 4])).
  { apply Downsample_call_shape; [intros _; eexists; reflexivity |].
    unfold g, ResNetGenerator_built, Downsample_built,
      Upsample_built.
    cbn [ResNetGenerator.downsample_3 Downsample.conv2d].
    rewrite conv_shape_same
      by (first [reflexivity
                | cbn [kernel_size strides filters padding]; lia]).
    cbn [strides filters]. now rewrite !ceil_div_2_2. }
  assert (R : forall block_name,
             run_stage (B := backend)
               (Res (ResNetBlock_built (attr self block_name) (ff * 4) 3 1
                       valid))
               (Some [bs; ceil_div h 4; ceil_div w 4; ff * 4])
             = Ok (Some [bs; ceil_div h 4; ceil_div w 4; ff * 4])).
  { intros block_name. apply (f_equal Ok).
    apply (ResNetBlock_call_shape (attr self block_name)); lia. }
  assert (U1 : run_stage (B := backend)
                 (Up (ResNetGenerator.upsample_1 g))
                 (Some [bs; ceil_div h 4; ceil_div w 4; ff * 4])
               = Ok (Some [bs; ceil_div h 4 * 2; ceil_div w 4 * 2; ff * 2])).
  { unfold g, ResNetGenerator_built, Downsample_built,
      Upsample_built.
    cbn [run_stage ResNetGenerator.upsample_1].
    rewrite Upsample_call_shape_same;
      first [reflexivity
            | intros _; eexists; reflexivity
            | cbn [Upsample.conv2dtranspose kernel_size strides filters];
              lia]. }
  assert (U2 : run_stage (B := backend)
                 (Up (ResNetGenerator.upsample_2 g))
                 (Some [bs; ceil_div h 4 * 2; ceil_div w 4 * 2; ff * 2])
               = Ok (Some [bs; ceil_div h 4 * 2 * 2;
                           ceil_div w 4 * 2 * 2; ff])).
  { unfold g, ResNetGenerator_built, Downsample_built,
      Upsample_built.
    cbn [run_stage ResNetGenerator.upsample_2].
    rewrite Upsample_call_shape_same;
      first [reflexivity
            | intros _; eexists; reflexivity
            | cbn [Upsample.conv2dtranspose kernel_size strides filters];
              lia]. }
  assert (P2 : run_stage (B := backend) (ReflectPad 3)
                 (Some [bs; ceil_div h 4 * 2 * 2; ceil_div w 4 * 2 * 2; ff])
               = Ok (Some [bs; ceil_div h 4 * 2 * 2 + 2 * 3;
                           ceil_div w 4 * 2 * 2 + 2 * 3; ff])).
  { apply (f_equal Ok). apply reflect_pad_shape; lia. }
  assert (C : run_stage (B := backend)
                (Conv (attr self "last_conv2d")
                   (ResNetGenerator.last_conv2d g))
                (Some [bs; ceil_div h 4 * 2 * 2 + 2 * 3;
                       ceil_div w 4 * 2 * 2 + 2 * 3; ff])
              = Ok (Some [bs; 4 * ceil_div h 4; 4 * ceil_div w 4; oc])).
  { unfold g, ResNetGenerator_built, Downsample_built,
      Upsample_built.
    cbn [run_stage ResNetGenerator.last_conv2d keras_Conv2D backend
         on_shape].
    rewrite conv_shape_valid
      by (first [reflexivity
                | cbn [kernel_size strides filters padding]; lia]).
    cbn [kernel_size strides filters]. rewrite !Z.div_1_r.
    repeat (f_equal; try lia). }
  rewrite ResNetGenerator_call_run.
  change (ResNetGenerator_stages g)
    with ([ ReflectPad 3;
            Down (ResNetGenerator.downsample_1 g);
            Down (ResNetGenerator.downsample_2 g);
            Down (ResNetGenerator.downsample_3 g);
            Res (ResNetBlock_built (attr self "resnetblock_1") (ff * 4) 3 1
                   valid);
            Res (ResNetBlock_built (attr self "resnetblock_2") (ff * 4) 3 1
                   valid);
            Res (ResNetBlock_built (attr self "resnetblock_3") (ff * 4) 3 1
                   valid);
            Res (ResNetBlock_built (attr self "resnetblock_4") (ff * 4) 3 1
                   valid);
            Res (ResNetBlock_built (attr self "resnetblock_5") (ff * 4) 3 1
                   valid);
            Res (ResNetBlock_built (attr self "resnetblock_6") (ff * 4) 3 1
                   valid);
            Res (ResNetBlock_built (attr self "resnetblock_7") (ff * 4) 3 1
                   valid);
            Res (ResNetBlock_built (attr self "resnetblock_8") (ff * 4) 3 1
                   valid);
            Res (ResNetBlock_built (attr self "resnetblock_9") (ff * 4) 3 1
                   valid);
            Up (ResNetGenerator.upsample_1 g);
            Up (ResNetGenerator.upsample_2 g);
            ReflectPad 3;
            Conv (attr self "last_conv2d") (ResNetGenerator.last_conv2d g) ]).
  cbn [run].
  rewrite P1; cbn [Py.bind]. rewrite D1; cbn [Py.bind].
  rewrite D2; cbn [Py.bind]. rewrite D3; cbn [Py.bind].
  do 9 (rewrite R; cbn [Py.bind]).
  rewrite U1; cbn [Py.bind]. rewrite U2; cbn [Py.bind].
  rewrite P2; cbn [Py.bind]. rewrite C; cbn [Py.bind].
  reflexivity.
Qed.

Lemma ResNetGenerator_call_shape_witness :
  exists g,
    ResNetGenerator.init "G" 32 1 None "generator" = Ok g
    /\ ResNetGenerator.call (B := backend) g (Some [2; 10; 128; 3])
       = Ok (Some [2; 12; 128; 1]).
Proof.
  destruct (ResNetGenerator_call_shape "G" 32 1 None "generator" 2 10 128 3
              eq_refl ltac:(lia) ltac:(lia) ltac:(lia) ltac:(lia) ltac:(lia)
              ltac:(lia))
    as (g & Hg & Hcall & _).
  exists g. split; [exact Hg | exact Hcall].
Defined.

End GeneratorShapes.

(** ** Instance normalization: what the output looks like *)

Section InstanceNormalizationFacts.

Import RealBackend.

Lemma sum_below_plus : forall n f g,
  sum_below n (fun i => (f i + g i)%R) = (sum_below n f + sum_below n g)%R.
Proof.
  intros n f g. induction n as [| n IH]; cbn [sum_below]; [ring |].
  rewrite IH. ring.
Qed.

Lemma sum_below_scale : forall n a f,
  sum_below n (fun i => (a * f i)%R) = (a * sum_below n f)%R.
Proof.
  intros n a f. induction n as [| n IH]; cbn [sum_below]; [ring |].
  rewrite IH. ring.
Qed.

Lemma sum_below_const : forall n a,
  sum_below n (fun _ => a) = (INR n * a)%R.
Proof.
  intros n a. induction n as [| n IH]; [cbn; ring |].
  cbn [sum_below]. rewrite IH, S_INR. ring.
Qed.

Lemma sum_below_nonneg : forall n f,
  (forall i, (i < n)%nat -> (0 <= f i)%R) -> (0 <= sum_below n f)%R.
Proof.
  intros n f. induction n as [| n IH]; intros Hf; cbn [sum_below]; [lra |].
  assert (0 <= sum_below n f)%R by (apply IH; intros; apply Hf; lia).
  assert (0 <= f n)%R by (apply Hf; lia). lra.
Qed.

Lemma grid_sum_ext : forall h w f g,
  (forall i j, (i < h)%nat -> (j < w)%nat -> f i j = g i j) ->
  grid_sum h w f = grid_sum h w g.
Proof.
  intros h w f g Hfg. unfold grid_sum.
  apply sum_below_ext. intros i Hi.
  apply sum_below_ext. intros j Hj. now apply Hfg.
Qed.

Lemma grid_sum_affine : forall h w a c f,
  grid_sum h w (fun i j => (a * f i j + c)%R)
  = (a * grid_sum h w f + INR (h * w) * c)%R.
Proof.
  intros h w a c f. unfold grid_sum.
  rewrite (sum_below_ext h _
             (fun i => (a * sum_below w (fun j => f i j) + INR w * c)%R)).
  - rewrite sum_below_plus, sum_below_scale, sum_below_const, mult_INR. ring.
  - intros i _. now rewrite sum_below_plus, sum_below_scale, sum_below_const.
Qed.

Lemma spatial_mean_grid : forall x h w b k,
  spatial_mean x h w b k
  = (grid_sum h w (fun i j => value x [b; i; j; k]) / INR (h * w))%R.
Proof. reflexivity. Qed.

Lemma spatial_variance_grid : forall x h w b k,
  spatial_variance x h w b k
  = (grid_sum h w (fun i j =>
       Rsqr (value x [b; i; j; k] - spatial_mean x h w b k))
     / INR (h * w))%R.
Proof. reflexivity. Qed.

Lemma grid_size_pos : forall h w, (0 < h)%nat -> (0 < w)%nat ->
  (0 < INR (h * w))%R.
Proof. intros h w Hh Hw. apply lt_0_INR. nia. Qed.

Lemma spatial_variance_nonneg : forall x h w b k,
  (0 < h)%nat -> (0 < w)%nat -> (0 <= spatial_variance x h w b k)%R.
Proof.
  intros x h w b k Hh Hw. unfold spatial_variance.
  apply Rmult_le_pos.
  - apply sum_below_nonneg. intros i _.
    apply sum_below_nonneg. intros j _. apply Rle_0_sqr.
  - left. apply Rinv_0_lt_compat. now apply grid_size_pos.
Qed.

Variable variables : ref -> string -> list nat -> R.

(** The output of the layer as [call] computes it. *)
Lemma InstanceNormalization_value :
  forall this layer x n h w c b i j k,
    shape x = [n; h; w; c] ->
    (b < n)%nat -> (i < h)%nat -> (j < w)%nat -> (k < c)%nat ->
    value (InstanceNormalization.apply (A := arith variables) this layer x)
      [b; i; j; k]
    = (variables this "scale" [k]
       * ((value x [b; i; j; k] - spatial_mean x h w b k)
          * / sqrt (spatial_variance x h w b k
                    + Q2R (InstanceNormalization.epsilon layer)))
       + variables this "offset" [k])%R.
Proof.
  intros this layer x n h w c b i j k Hx Hb Hi Hj Hk.
  unfold InstanceNormalization.apply, InstanceNormalization.call,
    InstanceNormalization.build.
  cbn [tf_nn_moments tensor_shape add_weight tf_math_rsqrt tensor_add
       tensor_sub tensor_mul tensor_add_scalar arith
       InstanceNormalization.scale InstanceNormalization.offset].
  rewrite Hx.
  change (last_slice (map Z.of_nat [n; h; w; c])) with [Z.of_nat c].
  cbn [map]. rewrite Nat2Z.id.
  pose proof (moments_spatial x n h w c Hx) as Hmoments.
  destruct (moments x [1; 2] true) as [mean variance].
  destruct Hmoments as (Hms & Hvs & Hval).
  destruct (Hval b k Hb Hk) as [Hmean Hvariance].
  destruct (pointwise_moment Rminus x mean n h w c Hx Hms) as [Hcs Hcv].
  destruct (pointwise_moment Rmult (pointwise Rminus x mean)
              (map_values (fun v => (/ sqrt v)%R)
                 (map_values
                    (fun v =>
                       (v + Q2R (InstanceNormalization.epsilon layer))%R)
                    variance))
              n h w c Hcs Hvs) as [Hns Hnv].
  destruct (pointwise_channel_l Rmult
              {| shape := [c]; value := variables this "scale" |}
              _ n h w c eq_refl Hns) as [Hss Hsv].
  destruct (pointwise_channel_r Rplus _
              {| shape := [c]; value := variables this "offset" |}
              n h w c Hss eq_refl) as [_ Hyv].
  rewrite Hyv, Hsv, Hnv, Hcv by assumption.
  cbn [map_values value]. now rewrite Hmean, Hvariance.
Qed.

Lemma InstanceNormalization_shape_real :
  forall this layer x n h w c,
    shape x = [n; h; w; c] ->
    shape (InstanceNormalization.apply (A := arith variables) this layer x)
    = [n; h; w; c].
Proof.
  intros this layer x n h w c Hx.
  unfold InstanceNormalization.apply, InstanceNormalization.call,
    InstanceNormalization.build.
  cbn [tf_nn_moments tensor_shape add_weight tf_math_rsqrt tensor_add
       tensor_sub tensor_mul tensor_add_scalar arith
       InstanceNormalization.scale InstanceNormalization.offset].
  rewrite Hx.
  change (last_slice (map Z.of_nat [n; h; w; c])) with [Z.of_nat c].
  cbn [map]. rewrite Nat2Z.id.
  pose proof (moments_spatial x n h w c Hx) as Hmoments.
  destruct (moments x [1; 2] true) as [mean variance].
  destruct Hmoments as (Hms & Hvs & _).
  destruct (pointwise_moment Rminus x mean n h w c Hx Hms) as [Hcs _].
  destruct (pointwise_moment Rmult (pointwise Rminus x mean)
              (map_values (fun v => (/ sqrt v)%R)
                 (map_values
                    (fun v =>
                       (v + Q2R (InstanceNormalization.epsilon layer))%R)
                    variance))
              n h w c Hcs Hvs) as [Hns _].
  destruct (pointwise_channel_l Rmult
              {| shape := [c]; value := variables this "scale" |}
              _ n h w c eq_refl Hns) as [Hss _].
  destruct (pointwise_channel_r Rplus _
              {| shape := [c]; value := variables this "offset" |}
              n h w c Hss eq_refl) as [Hys _].
  exact Hys.
Qed.

(** X12.  Over the reals and with a positive epsilon, the output of
    instance normalization has, over each image and channel, the channel's
    [offset] as its spatial mean, whatever the input and the scale are: the
    layer removes the mean of every channel of every image. *)
Theorem InstanceNormalization_output_mean :
  forall this layer x n h w c b k,
    shape x = [n; h; w; c] ->
    (b < n)%nat -> (k < c)%nat -> (0 < h)%nat -> (0 < w)%nat ->
    (0 < Q2R (InstanceNormalization.epsilon layer))%R ->
    spatial_mean
      (InstanceNormalization.apply (A := arith variables) this layer x)
      h w b k
    = variables this "offset" [k].
Proof.
  intros this layer x n h w c b k Hx Hb Hk Hh Hw Heps.
  pose proof (grid_size_pos h w Hh Hw) as Hsize.
  rewrite spatial_mean_grid.
  set (r := (/ sqrt (spatial_variance x h w b k
                     + Q2R (InstanceNormalization.epsilon layer)))%R).
  set (m := spatial_mean x h w b k).
  rewrite (grid_sum_ext h w _
             (fun i j =>
                (variables this "scale" [k] * r * value x [b; i; j; k]
                 + (variables this "offset" [k]
                    - variables this "scale" [k] * r * m))%R)).
  - rewrite grid_sum_affine.
    assert (Hm : grid_sum h w (fun i j => value x [b; i; j; k])
                 = (INR (h * w) * m)%R).
    { subst m. rewrite spatial_mean_grid. field. lra. }
    rewrite Hm. field. lra.
  - intros i j Hi Hj.
    rewrite (InstanceNormalization_value this layer x n h w c b i j k)
      by assumption.
    fold r m. ring.
Qed.

(** X13.  Instance normalization does not see a constant added to a
    channel of an image: if [x'] is [x] with [delta] added everywhere in
    channel [k] of image [b], the two outputs agree on that channel. *)
Theorem InstanceNormalization_shift_invariant :
  forall this layer x x' n h w c b i j k delta,
    shape x = [n; h; w; c] -> shape x' = [n; h; w; c] ->
    (b < n)%nat -> (i < h)%nat -> (j < w)%nat -> (k < c)%nat ->
    (forall i' j', (i' < h)%nat -> (j' < w)%nat ->
       value x' [b; i'; j'; k] = (value x [b; i'; j'; k] + delta)%R) ->
    value (InstanceNormalization.apply (A := arith variables) this layer x')
      [b; i; j; k]
    = value (InstanceNormalization.apply (A := arith variables) this layer x)
        [b; i; j; k].
Proof.
  intros this layer x x' n h w c b i j k delta Hx Hx' Hb Hi Hj Hk Hshift.
  assert (Hsize : (0 < INR (h * w))%R) by (apply grid_size_pos; lia).
  assert (Hmean : spatial_mean x' h w b k
                  = (spatial_mean x h w b k + delta)%R).
  { rewrite !spatial_mean_grid.
    rewrite (grid_sum_ext h w _
               (fun i' j' => (1 * value x [b; i'; j'; k] + delta)%R)).
    - rewrite grid_sum_affine. field. lra.
    - intros i' j' Hi' Hj'. rewrite Hshift by assumption. ring. }
  assert (Hvar : spatial_variance x' h w b k = spatial_variance x h w b k).
  { rewrite !spatial_variance_grid. f_equal.
    apply grid_sum_ext. intros i' j' Hi' Hj'.
    rewrite Hmean, Hshift by assumption. f_equal. ring. }
  rewrite (InstanceNormalization_value this layer x' n h w c b i j k)
    by assumption.
  rewrite (InstanceNormalization_value this layer x n h w c b i j k)
    by assumption.
  rewrite Hmean, Hvar, Hshift by assumption.
  f_equal. f_equal. f_equal. ring.
Qed.

Lemma within_moments : forall n c idx,
  CheckedBackend.within [n; 1%nat; 1%nat; c] idx
  <-> exists b k, idx = [b; O; O; k] /\ (b < n)%nat /\ (k < c)%nat.
Proof.
  intros n c idx. split.
  - destruct idx as [| b [| i [| j [| k [| ? ?]]]]]; cbn;
      try tauto.
    intros (Hb & Hi & Hj & Hk & _).
    exists b, k. replace i with O by lia. replace j with O by lia.
    repeat split; assumption.
  - intros (b & k & -> & Hb & Hk). cbn. repeat split; lia.
Qed.

(** X14.  Over the reals, with every division and root checked: on an
    image batch with at least one row and one column the output of the
    layer has the values of the unchecked layer, and it is defined exactly
    when the variance of every channel of every image, plus epsilon, is
    positive, that being what [call] takes the reciprocal square root of.
    The variance is never negative, so with a positive epsilon the layer
    never divides by zero; with epsilon zero it does on every channel that
    is constant over an image. *)
Theorem InstanceNormalization_call_defined :
  forall this layer (x : CheckedBackend.tensor) n h w c,
    shape (CheckedBackend.data x) = [n; h; w; c] ->
    (0 < h)%nat -> (0 < w)%nat ->
    CheckedBackend.defined x ->
    let y :=
      InstanceNormalization.apply (A := CheckedBackend.arith variables) this
        layer x in
    let epsilon := Q2R (InstanceNormalization.epsilon layer) in
    CheckedBackend.data y
    = InstanceNormalization.apply (A := arith variables) this layer
        (CheckedBackend.data x)
    /\ (CheckedBackend.defined y
        <-> forall b k, (b < n)%nat -> (k < c)%nat ->
              (0 < spatial_variance (CheckedBackend.data x) h w b k
                   + epsilon)%R)
    /\ ((0 < epsilon)%R -> CheckedBackend.defined y)
    /\ (epsilon = 0%R ->
        forall b k v, (b < n)%nat -> (k < c)%nat ->
          (forall i j, (i < h)%nat -> (j < w)%nat ->
             value (CheckedBackend.data x) [b; i; j; k] = v) ->
          ~ CheckedBackend.defined y).
Proof.
  intros this layer x n h w c Hx Hh Hw Hdef y epsilon.
  assert (Hiff :
    CheckedBackend.defined y
    <-> forall b k, (b < n)%nat -> (k < c)%nat ->
          (0 < spatial_variance (CheckedBackend.data x) h w b k
               + epsilon)%R).
  { subst y epsilon.
    unfold InstanceNormalization.apply, InstanceNormalization.call,
      InstanceNormalization.build.
    cbn [tf_nn_moments tensor_shape add_weight tf_math_rsqrt tensor_add
         tensor_sub tensor_mul tensor_add_scalar CheckedBackend.arith
         InstanceNormalization.scale InstanceNormalization.offset].
    unfold CheckedBackend.moments. rewrite Hx.
    pose proof (moments_spatial (CheckedBackend.data x) n h w c Hx)
      as Hmoments.
    destruct (moments (CheckedBackend.data x) [1; 2] true)
      as [mean variance].
    destruct Hmoments as (_ & Hvs & Hval).
    cbn [CheckedBackend.pointwise CheckedBackend.rsqrt CheckedBackend.defined
         CheckedBackend.data map_values shape value].
    rewrite Hvs.
    assert (Hcount :
      (0 < count (axes_of (List.length [n; h; w; c]) [1; 2]%Z)
             [n; h; w; c])%nat).
    { cbn [List.length axes_of map].
      change (Z.to_nat (if 1 <? 0 then 1 + Z.of_nat 4 else 1)) with 1%nat.
      change (Z.to_nat (if 2 <? 0 then 2 + Z.of_nat 4 else 2)) with 2%nat.
      cbn [count fold_right nth]. nia. }
    split.
    - intros ((_ & _ & _ & Hpos) & _) b k Hb Hk.
      destruct (Hval b k Hb Hk) as [_ <-].
      apply Hpos. apply within_moments. exists b, k. repeat split; assumption.
    - intros Hpos.
      split; [| exact I]. split; [exact I |].
      split; [tauto |]. split; [tauto |].
      intros idx Hidx. apply within_moments in Hidx
        as (b & k & -> & Hb & Hk).
      destruct (Hval b k Hb Hk) as [_ ->]. now apply Hpos. }
  split.
  - subst y.
    unfold InstanceNormalization.apply, InstanceNormalization.call,
      InstanceNormalization.build.
    cbn [tf_nn_moments tensor_shape add_weight tf_math_rsqrt tensor_add
         tensor_sub tensor_mul tensor_add_scalar CheckedBackend.arith arith
         InstanceNormalization.scale InstanceNormalization.offset].
    unfold CheckedBackend.moments.
    destruct (moments (CheckedBackend.data x) [1; 2] true)
      as [mean variance].
    reflexivity.
  - split; [exact Hiff |]. split.
    + intros Heps. apply Hiff. intros b k Hb Hk.
      pose proof (spatial_variance_nonneg (CheckedBackend.data x) h w b k
                    Hh Hw).
      lra.
    + intros Heps b k v Hb Hk Hconst Hy.
      assert (Hsize : (0 < INR (h * w))%R) by (apply grid_size_pos; lia).
      assert (Hmean : spatial_mean (CheckedBackend.data x) h w b k = v).
      { rewrite spatial_mean_grid.
        rewrite (grid_sum_ext h w _ (fun _ _ => (0 * 0 + v)%R)).
        - rewrite grid_sum_affine. unfold grid_sum.
          rewrite !sum_below_const. field. lra.
        - intros i' j' Hi' Hj'. rewrite Hconst by assumption. ring. }
      assert (Hvar : spatial_variance (CheckedBackend.data x) h w b k = 0%R).
      { rewrite spatial_variance_grid.
        rewrite (grid_sum_ext h w _ (fun _ _ => (0 * 0 + 0)%R)).
        - rewrite grid_sum_affine. unfold grid_sum.
          rewrite !sum_below_const. field. lra.
        - intros i' j' Hi' Hj'. rewrite Hmean, Hconst by assumption.
          unfold Rsqr. ring. }
      pose proof (proj1 Hiff Hy b k Hb Hk) as Hpos.
      rewrite Hvar, Heps in Hpos. lra.
Qed.

(** X15.  Over the reals, that is in exact arithmetic: on a channel that
    is constant over an image the mean is that constant, the variance is
    zero, and, epsilon being positive, the output of the layer is the
    channel's [offset] at every position.  (In floating point the mean of a
    constant channel can be rounded away from the constant.) *)
Theorem InstanceNormalization_constant_channel :
  forall this layer x n h w c b i j k v,
    shape x = [n; h; w; c] ->
    (b < n)%nat -> (i < h)%nat -> (j < w)%nat -> (k < c)%nat ->
    (0 < Q2R (InstanceNormalization.epsilon layer))%R ->
    (forall i' j', (i' < h)%nat -> (j' < w)%nat ->
       value x [b; i'; j'; k] = v) ->
    spatial_mean x h w b k = v
    /\ spatial_variance x h w b k = 0%R
    /\ value (InstanceNormalization.apply (A := arith variables) this layer x)
         [b; i; j; k]
       = variables this "offset" [k].
Proof.
  intros this layer x n h w c b i j k v Hx Hb Hi Hj Hk Heps Hconst.
  assert (Hsize : (0 < INR (h * w))%R) by (apply grid_size_pos; lia).
  assert (Hmean : spatial_mean x h w b k = v).
  { rewrite spatial_mean_grid.
    rewrite (grid_sum_ext h w _ (fun _ _ => (0 * 0 + v)%R)).
    - rewrite grid_sum_affine. unfold grid_sum.
      rewrite !sum_below_const. field. lra.
    - intros i' j' Hi' Hj'. rewrite Hconst by assumption. ring. }
  assert (Hvar : spatial_variance x h w b k = 0%R).
  { rewrite spatial_variance_grid.
    rewrite (grid_sum_ext h w _ (fun _ _ => (0 * 0 + 0)%R)).
    - rewrite grid_sum_affine. unfold grid_sum.
      rewrite !sum_below_const. field. lra.
    - intros i' j' Hi' Hj'. rewrite Hmean, Hconst by assumption.
      unfold Rsqr. ring. }
  split; [exact Hmean |]. split; [exact Hvar |].
  rewrite (InstanceNormalization_value this layer x n h w c b i j k)
    by assumption.
  rewrite Hmean, Hconst by assumption. ring.
Qed.

End InstanceNormalizationFacts.

Lemma InstanceNormalization_output_mean_witness :
  let variables := fun (_ : ref) (name : string) (_ : list nat) =>
                     if String.eqb name "offset" then 3%R else 2%R in
  let x := {| RealBackend.shape := [1; 1; 2; 1]%nat;
              RealBackend.value := fun idx => INR (nth 2 idx O) |} in
  RealBackend.spatial_mean
    (InstanceNormalization.apply (A := RealBackend.arith variables) "norm"
       (InstanceNormalization.init InstanceNormalization.epsilon_default) x)
    1 2 0 0
  = 3%R.
Proof.
  intros variables x.
  assert (Heps : (0 < Q2R InstanceNormalization.epsilon_default)%R).
  { unfold InstanceNormalization.epsilon_default, Q2R. cbn. lra. }
  exact (InstanceNormalization_output_mean variables "norm"
           (InstanceNormalization.init InstanceNormalization.epsilon_default)
           x 1 1 2 1 0 0 eq_refl (le_n 1) (le_n 1) (le_n 1)
           (le_S 1 1 (le_n 1)) Heps).
Defined.

Lemma InstanceNormalization_shift_invariant_witness :
  let variables := fun (_ : ref) (_ : string) (_ : list nat) => 1%R in
  let x := {| RealBackend.shape := [1; 1; 2; 1]%nat;
              RealBackend.value := fun idx => INR (nth 2 idx O) |} in
  let x' := {| RealBackend.shape := [1; 1; 2; 1]%nat;
               RealBackend.value := fun idx => (INR (nth 2 idx O) + 5)%R |} in
  let layer :=
    InstanceNormalization.init InstanceNormalization.epsilon_default in
  RealBackend.value
    (InstanceNormalization.apply (A := RealBackend.arith variables) "norm"
       layer x') [0; 0; 1; 0]%nat
  = RealBackend.value
      (InstanceNormalization.apply (A := RealBackend.arith variables) "norm"
         layer x) [0; 0; 1; 0]%nat.
Proof.
  intros variables x x' layer.
  exact (InstanceNormalization_shift_invariant variables "norm" layer x x'
           1 1 2 1 0 0 1 0 5%R eq_refl eq_refl (le_n 1) (le_n 1) (le_n 2)
           (le_n 1) (fun i' j' _ _ => eq_refl)).
Defined.

Lemma InstanceNormalization_constant_channel_witness :
  let variables := fun (_ : ref) (name : string) (_ : list nat) =>
                     if String.eqb name "offset" then 3%R else 2%R in
  let x := {| RealBackend.shape := [1; 2; 2; 1]%nat;
              RealBackend.value := fun _ => 7%R |} in
  RealBackend.value
    (InstanceNormalization.apply (A := RealBackend.arith variables) "norm"
       (InstanceNormalization.init InstanceNormalization.epsilon_default) x)
    [0; 1; 1; 0]%nat
  = 3%R.
Proof.
  intros variables x.
  assert (Heps : (0 < Q2R InstanceNormalization.epsilon_default)%R).
  { unfold InstanceNormalization.epsilon_default, Q2R. cbn. lra. }
  exact (proj2 (proj2
           (InstanceNormalization_constant_channel variables "norm"
              (InstanceNormalization.init
                 InstanceNormalization.epsilon_default)
              x 1 2 2 1 0 1 1 0 7%R eq_refl (le_n 1) (le_n 2) (le_n 2)
              (le_n 1) Heps (fun _ _ _ _ => eq_refl)))).
Defined.

Lemma InstanceNormalization_call_defined_witness :
  let variables := fun (_ : ref) (_ : string) (_ : list nat) => 1%R in
  let x := {| CheckedBackend.data :=
                {| RealBackend.shape := [1; 1; 2; 1]%nat;
                   RealBackend.value := fun idx => INR (nth 2 idx O) |};
              CheckedBackend.defined := True |} in
  CheckedBackend.defined
    (InstanceNormalization.apply (A := CheckedBackend.arith variables) "norm"
       (InstanceNormalization.init InstanceNormalization.epsilon_default) x).
Proof.
  intros variables x.
  assert (Heps : (0 < Q2R InstanceNormalization.epsilon_default)%R).
  { unfold InstanceNormalization.epsilon_default, Q2R. cbn. lra. }
  exact (proj1 (proj2 (proj2
           (InstanceNormalization_call_defined variables "norm"
              (InstanceNormalization.init
                 InstanceNormalization.epsilon_default)
              x 1 1 2 1 eq_refl (le_n 1) (le_S 1 1 (le_n 1)) I)))
           Heps).
Defined.

